(** * A command-line notebook: shallow embedding of [main.py]

    The program keeps a list of notes in memory, one text file per note in a
    [notes] folder, and drives both from a read-eval-print loop.  Everything
    it does is a side effect (files, terminal, clock, an external editor), so
    the embedding is a state-and-exception monad over an explicit model of
    that environment:

    - Python [str] values are Rocq strings, a character being read as the
      code point of the same number (U+0000 to U+00FF);
    - the filesystem is a finite map from absolute paths (lists of component
      names, the root being the empty list) to files and directories, with
      POSIX path resolution relative to a working directory; names are
      compared exactly (a case-sensitive filesystem); symbolic links,
      permissions and length limits are not modelled;
    - standard input is the list of lines still to be read, standard output
      the list of events written so far;
    - [datetime.now()] reads a counter that advances on every reading;
    - the editor started by [Note.edit] is a script of outcomes, one per
      launch.

    A [Note] object is referred to by its position in [Notebook.notes]; the
    list owns the objects, and a method that mutates [self] updates the list
    in place. *)

From Stdlib Require Import Ascii.
From stdpp Require Import base option list strings gmap.

(** ** Python strings *)

Module Str.

Definition nl : string := String "010"%char "".

(** [str.lower] on one code point below 256: the cased upper-case letters
    are A-Z, and in the Latin-1 block U+00C0-U+00DE without the
    multiplication sign U+00D7; each maps to the code point 32 above. *)
Definition lower_char (c : ascii) : ascii :=
  let n := nat_of_ascii c in
  if ((65 <=? n) && (n <=? 90)) || ((192 <=? n) && (n <=? 222) && negb (n =? 215))
  then ascii_of_nat (n + 32) else c.

Fixpoint lower (s : string) : string :=
  match s with
  | "" => ""
  | String c s' => String (lower_char c) (lower s')
  end.

(** The code points below 256 that [str.split()] treats as white space. *)
Definition isspace (c : ascii) : bool :=
  let n := nat_of_ascii c in
  ((9 <=? n) && (n <=? 13)) || ((28 <=? n) && (n <=? 32))
  || (n =? 133) || (n =? 160).

(** [s.split()]: the maximal runs of characters that are not white space.
    [tok] is the run being read, reversed. *)
Fixpoint split_go (tok : option string) (s : string) : list string :=
  match s with
  | "" => option_list (String.rev <$> tok)
  | String c s' =>
      if isspace c then option_list (String.rev <$> tok) ++ split_go None s'
      else split_go (Some (String c (default "" tok))) s'
  end.
Definition split (s : string) : list string := split_go None s.

(** ["_".join(args)] *)
Fixpoint join (sep : string) (l : list string) : string :=
  match l with
  | [] => ""
  | [x] => x
  | x :: l' => x +:+ sep +:+ join sep l'
  end.

(** [s.replace('_', ' ')] *)
Fixpoint replace_char (a b : ascii) (s : string) : string :=
  match s with
  | "" => ""
  | String c s' => String (if decide (c = a) then b else c) (replace_char a b s')
  end.

(** [s[:n]] *)
Fixpoint take (n : nat) (s : string) : string :=
  match n, s with
  | S n', String c s' => String c (take n' s')
  | _, _ => ""
  end.

Fixpoint endswith_slash (s : string) : bool :=
  match s with
  | "" => false
  | String c "" => bool_decide (c = "/"%char)
  | String _ s' => endswith_slash s'
  end.

Definition startswith_slash (s : string) : bool :=
  match s with
  | String c _ => bool_decide (c = "/"%char)
  | "" => false
  end.

(** [s.endswith(".txt")], and the rest of [s] when it does. *)
Fixpoint strip_txt (s : string) : option string :=
  match s with
  | "" => None
  | String c s' =>
      if decide (s = ".txt") then Some ""
      else String c <$> strip_txt s'
  end.
Definition endswith_txt (s : string) : bool := bool_decide (is_Some (strip_txt s)).

Fixpoint all_dots (s : string) : bool :=
  match s with
  | "" => true
  | String c s' => bool_decide (c = "."%char) && all_dots s'
  end.

(** [s.split("/")]: the fields between separators, empty ones included. *)
Fixpoint fields (s : string) : list string :=
  match s with
  | "" => [""]
  | String c s' =>
      if decide (c = "/"%char) then "" :: fields s'
      else match fields s' with
           | t :: ts => String c t :: ts
           | [] => [String c ""]
           end
  end.

Fixpoint In_str (c : ascii) (s : string) : Prop :=
  match s with
  | "" => False
  | String c' s' => c = c' ∨ In_str c s'
  end.

End Str.

(** ** [os.path] *)

Module os_path.

(** [posixpath.join(a, b)] *)
Definition join (a b : string) : string :=
  if Str.startswith_slash b then b
  else if bool_decide (a = "") || Str.endswith_slash a then a +:+ b
  else a +:+ "/" +:+ b.

(** [os.path.splitext(f)[0]] for a directory entry [f] that ends in
    [.txt]: the extension is split off at the last dot unless only dots
    precede it, in which case the whole name is the root. *)
Definition splitext_root (f : string) : string :=
  match Str.strip_txt f with
  | Some stem => if Str.all_dots stem then f else stem
  | None => f
  end.

End os_path.

(** ** The data of a [Note] object *)

Module Note.

Record t := mk {
  name : string;
  content : string;
  edited_time : nat;
  filepath : string;
}.

Definition set_name (v : string) (n : t) : t :=
  mk v (content n) (edited_time n) (filepath n).
Definition set_content (v : string) (n : t) : t :=
  mk (name n) v (edited_time n) (filepath n).
Definition set_edited_time (v : nat) (n : t) : t :=
  mk (name n) (content n) v (filepath n).
Definition set_filepath (v : string) (n : t) : t :=
  mk (name n) (content n) (edited_time n) v.

Global Instance inhabited : Inhabited t := populate (mk "" "" 0 "").

End Note.

(** ** The environment *)

Inductive exn :=
  | FileNotFoundError (path : string)
  | NotADirectoryError (path : string)
  | IsADirectoryError (path : string)
  | OSError (path : string)
  | EOFError
  | AttributeError (msg : string)
  | SystemExit.

(** [except Exception] catches everything but [SystemExit]. *)
Definition is_Exception (e : exn) : bool :=
  match e with SystemExit => false | _ => true end.

Inductive node := File (data : string) | Dir.

(** One row of the table that [display_notes] prints: the four cells handed
    to [add_row].  The date cell holds the timestamp; its rendering by
    [strftime], like the drawing of the table, is left to the library. *)
Record row := Row {
  row_index : nat;
  row_name : string;
  row_time : nat;
  row_content : string;
}.

Inductive event :=
  | Print (s : string)              (* print(s) *)
  | PrintError (e : exn)            (* print(f"An error occurred: {str(e)}") *)
  | Prompt (s : string)             (* the prompt written by input(s) *)
  | Clear                           (* os.system('clear' / 'cls') *)
  | Table (rows : list row).        (* print(table) *)

(** What happens when [subprocess.run(["open", "-t", path])] is called: the
    launcher raises, or the editor opens and the user, before pressing Enter,
    saves a new text to the file or leaves it alone. *)
Inductive editor_outcome :=
  | LaunchFails (e : exn)
  | Launched (saved : option string).

Record state := State {
  script_dir : string;              (* os.path.dirname(__file__) *)
  cwd : list string;                (* the working directory of the process *)
  notes : list Note.t;              (* Notebook.notes *)
  fs : gmap (list string) node;
  stdin : list string;
  stdout : list event;
  clock : nat;
  editor : list editor_outcome;
}.

Definition set_notes (v : list Note.t) (s : state) : state :=
  State (script_dir s) (cwd s) v (fs s) (stdin s) (stdout s) (clock s) (editor s).
Definition set_fs (v : gmap (list string) node) (s : state) : state :=
  State (script_dir s) (cwd s) (notes s) v (stdin s) (stdout s) (clock s) (editor s).
Definition set_stdin (v : list string) (s : state) : state :=
  State (script_dir s) (cwd s) (notes s) (fs s) v (stdout s) (clock s) (editor s).
Definition set_stdout (v : list event) (s : state) : state :=
  State (script_dir s) (cwd s) (notes s) (fs s) (stdin s) v (clock s) (editor s).
Definition set_clock (v : nat) (s : state) : state :=
  State (script_dir s) (cwd s) (notes s) (fs s) (stdin s) (stdout s) v (editor s).
Definition set_editor (v : list editor_outcome) (s : state) : state :=
  State (script_dir s) (cwd s) (notes s) (fs s) (stdin s) (stdout s) (clock s) v.

(** ** The monad: state, and exceptions that keep the state reached *)

Inductive result (A : Type) :=
  | Ok (a : A)
  | Raise (e : exn).
Arguments Ok {A} a.
Arguments Raise {A} e.

Definition M (A : Type) : Type := state → result A * state.

Global Instance M_ret : MRet M := λ A a s, (Ok a, s).
Global Instance M_bind : MBind M := λ A B f m s,
  match m s with
  | (Ok a, s') => f a s'
  | (Raise e, s') => (Raise e, s')
  end.

Definition raise {A} (e : exn) : M A := λ s, (Raise e, s).
Definition gets {A} (f : state → A) : M A := λ s, (Ok (f s), s).
Definition modify (f : state → state) : M unit := λ s, (Ok (), f s).
Definition pass : M unit := mret ().

(** [try: body  except Exception as e: handler(e)] *)
Definition try_except {A} (body : M A) (handler : exn → M A) : M A := λ s,
  match body s with
  | (Raise e, s') => if is_Exception e then handler e s' else (Raise e, s')
  | r => r
  end.

(** ** Built-ins *)

Definition emit (e : event) : M unit :=
  modify (λ s, set_stdout (stdout s ++ [e]) s).

Definition print (s : string) : M unit := emit (Print s).

(** [input(prompt)]: writes the prompt, then reads one line. *)
Definition input (prompt : string) : M string :=
  emit (Prompt prompt);;
  l ← gets stdin;
  match l with
  | [] => raise EOFError
  | line :: rest => modify (set_stdin rest);; mret line
  end.

(** [datetime.now()] *)
Definition now : M nat :=
  t ← gets clock;
  modify (set_clock (S t));;
  mret t.

(** ** The filesystem *)

Section resolution.
Variable m : gmap (list string) node.

(** Enter the directory [c] of the directory [d]. *)
Definition enter (p : string) (d : list string) (c : string) : exn + list string :=
  if decide (c = "" ∨ c = ".") then inr d
  else if decide (c = "..") then inr (removelast d)
  else match m !! (d ++ [c]) with
       | Some Dir => inr (d ++ [c])
       | Some (File _) => inl (NotADirectoryError p)
       | None => inl (FileNotFoundError p)
       end.

Fixpoint walk (p : string) (d : list string) (cs : list string) : exn + list string :=
  match cs with
  | [] => inr d
  | c :: cs' =>
      match enter p d c with
      | inr d' => walk p d' cs'
      | inl e => inl e
      end
  end.

(** The last component of a path names the entry itself, which need not
    exist. *)
Definition child (d : list string) (c : string) : list string :=
  if decide (c = "" ∨ c = ".") then d
  else if decide (c = "..") then removelast d
  else d ++ [c].

Definition start (wd : list string) (p : string) : list string :=
  if Str.startswith_slash p then [] else wd.

(** The directory a path denotes: every component is entered. *)
Definition resolve_dir (wd : list string) (p : string) : exn + list string :=
  walk p (start wd p) (Str.fields p).

(** The entry a path denotes: all components but the last are entered. *)
Definition resolve (wd : list string) (p : string) : exn + list string :=
  match walk p (start wd p) (removelast (Str.fields p)) with
  | inr d => inr (child d (List.last (Str.fields p) ""))
  | inl e => inl e
  end.

(** The names of the entries of the directory [d], in the order of the
    map. *)
Definition entries (d : list string) : list string :=
  omap (λ kv : list string * node,
          if decide (kv.1 ≠ [] ∧ removelast kv.1 = d)
          then Some (List.last kv.1 "") else None)
       (map_to_list m).

(** Where a directory tree rooted at [src] ends up when it is moved to
    [dst]. *)
Definition rebase (src dst k : list string) : list string :=
  if decide (src `prefix_of` k) then dst ++ drop (length src) k else k.
Definition move_tree (src dst : list string) : gmap (list string) node :=
  list_to_map (prod_map (rebase src dst) id <$> map_to_list m).
End resolution.

Definition locate (p : string) : M (list string) :=
  m ← gets fs;
  wd ← gets cwd;
  match resolve m wd p with
  | inr k => mret k
  | inl e => raise e
  end.

(** [with open(p, "r") as f: f.read()] *)
Definition open_read (p : string) : M string :=
  k ← locate p;
  m ← gets fs;
  match m !! k with
  | Some (File data) => mret data
  | Some Dir => raise (IsADirectoryError p)
  | None => raise (FileNotFoundError p)
  end.

(** [with open(p, "w") as f: f.write(data)] *)
Definition open_write (p data : string) : M unit :=
  k ← locate p;
  m ← gets fs;
  match m !! k with
  | Some Dir => raise (IsADirectoryError p)
  | _ => modify (set_fs (<[k := File data]> m))
  end.

Module os.

(** [os.path.exists(p)] *)
Definition path_exists (p : string) : M bool :=
  m ← gets fs;
  wd ← gets cwd;
  match resolve m wd p with
  | inr k => mret (bool_decide (is_Some (m !! k)))
  | inl _ => mret false
  end.

(** [os.listdir(p)] *)
Definition listdir (p : string) : M (list string) :=
  m ← gets fs;
  wd ← gets cwd;
  match resolve_dir m wd p with
  | inr d => mret (entries m d)
  | inl e => raise e
  end.

(** [os.rename(src, dst)], as rename(2): a file replaces the file at
    [dst]; a directory moves with everything below it, and may only
    replace an empty directory. *)
Definition rename (src dst : string) : M unit :=
  ks ← locate src;
  kd ← locate dst;
  m ← gets fs;
  match m !! ks with
  | None => raise (FileNotFoundError src)
  | Some (File data) =>
      match m !! kd with
      | Some Dir => raise (IsADirectoryError dst)
      | _ => modify (set_fs (<[kd := File data]> (base.delete ks m)))
      end
  | Some Dir =>
      if decide (ks = kd) then pass
      else if decide (ks `prefix_of` kd) then raise (OSError dst)
      else match m !! kd with
           | Some (File _) => raise (NotADirectoryError dst)
           | Some Dir =>
               if decide (entries m kd = [])
               then modify (set_fs (move_tree (base.delete kd m) ks kd))
               else raise (OSError dst)
           | None => modify (set_fs (move_tree m ks kd))
           end
  end.

(** [os.system('clear' if os.name == 'posix' else 'cls')] *)
Definition system_clear : M unit := emit Clear.

End os.

Module subprocess.

(** [subprocess.run(["open", "-t", p])], and what the user does in the
    editor it opens. *)
Definition run_open (p : string) : M unit :=
  l ← gets editor;
  match l with
  | [] => pass
  | LaunchFails e :: rest => modify (set_editor rest);; raise e
  | Launched None :: rest => modify (set_editor rest)
  | Launched (Some data) :: rest =>
      modify (set_editor rest);;
      try_except (open_write p data) (λ _, pass)
  end.

End subprocess.

(** ** [notes_folder] and the references to [Note] objects *)

(** [notes_folder = os.path.join(os.path.dirname(__file__), 'notes')] *)
Definition notes_folder (s : state) : string := os_path.join (script_dir s) "notes".

(** The object behind the reference [i], and assignment to its attributes.
    A reference comes from [get_note] or is the position of the note just
    appended, so it is in range. *)
Definition this (i : nat) : M Note.t := gets (λ s, notes s !!! i).
Definition setattr (i : nat) (f : Note.t → Note.t) : M unit :=
  modify (λ s, set_notes (alter f i (notes s)) s).

(** ** class Note *)

(** [Note(name, content)]: the object is returned, not yet stored. *)
Definition Note_init (name : string) (content : option string) : M Note.t :=
  t ← now;
  folder ← gets notes_folder;
  mret (Note.mk name (default "" content) t (os_path.join folder (name +:+ ".txt"))).

Definition Note_save (self : nat) : M unit :=
  n ← this self;
  open_write (Note.filepath n) (Note.content n);;
  t ← now;
  setattr self (Note.set_edited_time t).

Definition Note_load_content (self : nat) : M unit :=
  n ← this self;
  data ← open_read (Note.filepath n);
  setattr self (Note.set_content data).

Definition Note_edit (self : nat) : M unit :=
  n ← this self;
  ex ← os.path_exists (Note.filepath n);
  (if ex : bool then pass
   else print "The note file does not exist. Creating a new file.";;
        Note_save self);;
  try_except
    (n ← this self;
     subprocess.run_open (Note.filepath n);;
     print "Note is opened in the text editor. Please save your changes and close the editor.";;
     _ ← input "Press Enter when you are done editing...";
     Note_load_content self)
    (λ e, emit (PrintError e)).

Definition Note_display (self : nat) : M unit :=
  n ← this self;
  print (Note.content n).

(** The class defines no method [delete]: looking the attribute up on a
    [Note] object raises. *)
Definition Note_delete (self : nat) : M unit :=
  raise (AttributeError "'Note' object has no attribute 'delete'").

(** ** class Notebook *)

Module Notebook.

Definition lines (l : list string) : string := Str.join Str.nl l.

Definition logo : string := lines [
  "";
  " _   _  ___ _____ _____ ____   ___   ___  _  __";
  "| \ | |/ _ \_   _| ____| __ ) / _ \ / _ \| |/ /";
  "|  \| | | | || | |  _| |  _ \| | | | | | | ' /";
  "| |\  | |_| || | | |___| |_) | |_| | |_| | . \";
  "|_| \_|\___/ |_| |_____|____/ \___/ \___/|_|\_\";
  "    " ].

Definition help_text : string := lines [
  "";
  "    Available commands:";
  "    - home: Display the list of notes.";
  "    - create <name>: Create a new note with the specified name.";
  "    - edit <name>: Edit the note with the specified name.";
  "    - delete <name>: Delete the note with the specified name.";
  "    - rename <old_name> <new_name>: Rename a note.";
  "    - help: Display this help message.";
  "    - exit | quit | q: Exit the program.";
  "    " ].

Definition exists_msg : string :=
  "A note with this name already exists. Please choose a different name.".

Definition print_logo : M unit := print logo.

(** [note.content[:50] + '...' if len(note.content) > 50 else note.content] *)
Definition formatted_content (content : string) : string :=
  if bool_decide (50 < String.length content)
  then Str.take 50 content +:+ "..." else content.

(** The loop of [display_notes]: [i] counts from 1, [table] collects the
    rows added so far. *)
Fixpoint display_loop (i : nat) (l : list Note.t) (table : list row) : M (list row) :=
  match l with
  | [] => mret table
  | note :: rest =>
      contents ← open_read ("notes/" +:+ Note.name note +:+ ".txt");
      let formatted_name := Str.replace_char "_" " " (Note.name note) in
      let formatted_time := Note.edited_time note in
      display_loop (S i) rest
        (table ++ [Row i formatted_name formatted_time
                       (formatted_content (Note.content note))])
  end.

Definition display_notes : M unit :=
  l ← gets notes;
  table ← display_loop 1 l [];
  emit (Table table).

Definition reset_screen : M unit :=
  os.system_clear;;
  print_logo;;
  print (Str.nl +:+ "Type 'help' to see the list of commands" +:+ Str.nl);;
  display_notes;;
  print Str.nl.

Definition home : M unit := reset_screen.

(** The loop of [load_notes] over the directory listing. *)
Fixpoint load_loop (files : list string) (acc : list Note.t) : M (list Note.t) :=
  match files with
  | [] => mret acc
  | note_file :: rest =>
      if Str.endswith_txt note_file then
        let name := os_path.splitext_root note_file in
        folder ← gets notes_folder;
        content ← open_read (os_path.join folder note_file);
        note ← Note_init name (Some content);
        load_loop rest (acc ++ [note])
      else load_loop rest acc
  end.

Definition load_notes : M (list Note.t) :=
  folder ← gets notes_folder;
  files ← os.listdir folder;
  load_loop files [].

(** [Notebook.__init__] *)
Definition init : M unit :=
  l ← load_notes;
  modify (set_notes l).

Definition same_name (name : string) (note : Note.t) : Prop :=
  Str.lower (Note.name note) = Str.lower name.

Global Instance same_name_dec name note : Decision (same_name name note).
Proof. unfold same_name. apply _. Defined.

Definition note_exists (l : list Note.t) (name : string) : bool :=
  existsb (λ note, bool_decide (same_name name note)) l.

(** The reference to the first note of that name, if any. *)
Definition get_note (l : list Note.t) (name : string) : option nat :=
  fst <$> list_find (same_name name) l.

Definition create_note (name : string) : M unit :=
  l ← gets notes;
  if note_exists l name then print exists_msg
  else
    content ← input "Enter the content of your note (press Enter to finish): ";
    note ← Note_init name (Some content);
    modify (λ s, set_notes (notes s ++ [note]) s);;
    Note_save (length l);;
    reset_screen.

Definition rename_note (old_name new_name : string) : M unit :=
  l ← gets notes;
  if bool_decide (Str.lower old_name ≠ Str.lower new_name) && note_exists l new_name
  then print exists_msg
  else
    match get_note l old_name with
    | Some note =>
        self ← this note;
        let old_filepath := Note.filepath self in
        setattr note (Note.set_name new_name);;
        folder ← gets notes_folder;
        setattr note (Note.set_filepath (os_path.join folder (new_name +:+ ".txt")));;
        self ← this note;
        os.rename old_filepath (Note.filepath self);;
        Note_save note;;
        reset_screen;;
        print "Note renamed successfully."
    | None =>
        reset_screen;;
        print "Note not found."
    end.

Definition delete_note (name : string) : M bool :=
  l ← gets notes;
  match get_note l name with
  | Some note =>
      answer ← input ("Are you sure you want to delete the note '" +:+ name
                      +:+ "'? (yes/no): ");
      let confirmation := Str.lower answer in
      if decide (confirmation = "yes") then
        Note_delete note;;
        modify (λ s, set_notes (base.delete note (notes s)) s);;
        reset_screen;;
        mret true
      else
        print "Deletion cancelled.";;
        mret false
  | None =>
      reset_screen;;
      mret false
  end.

Definition display_help : M unit := print help_text.

End Notebook.

(** ** class CommandProcessor *)

Module CommandProcessor.

Definition home (args : list string) : M unit := Notebook.home.

Definition create (args : list string) : M unit :=
  match args with
  | [] => print "Please provide a note name."
  | _ => Notebook.create_note (Str.join "_" args)
  end.

Definition edit (args : list string) : M unit :=
  match args with
  | [] => print "Please provide a note name."
  | _ =>
      l ← gets notes;
      match Notebook.get_note l (Str.join "_" args) with
      | Some note =>
          Note_edit note;;
          Note_save note;;
          Notebook.reset_screen
      | None => print "Note not found."
      end
  end.

Definition delete (args : list string) : M unit :=
  match args with
  | [] => print "Please provide a note name."
  | name :: _ =>
      deleted ← Notebook.delete_note name;
      if deleted : bool then print "Note deleted successfully."
      else print "Note not found."
  end.

Definition rename (args : list string) : M unit :=
  match args with
  | old_name :: (_ :: _) as rest =>
      Notebook.rename_note old_name (Str.join "_" rest)
  | _ => print "Please provide the old and new note names."
  end.

Definition help (args : list string) : M unit := Notebook.display_help.

Definition exit (args : list string) : M unit := raise SystemExit.

Definition commands : gmap string (list string → M unit) :=
  list_to_map [
    ("home", home); ("create", create); ("edit", edit); ("delete", delete);
    ("rename", rename); ("help", help); ("exit", exit); ("quit", exit);
    ("q", exit) ].

Definition process (command : string) : M unit :=
  match Str.split command with
  | [] => pass
  | token :: args =>
      match commands !! Str.lower token with
      | Some handler => handler args
      | None => print "Invalid command"
      end
  end.

End CommandProcessor.

(** ** [main] *)

(** [n] rounds of the [while True] loop of [main]. *)
Fixpoint loop (n : nat) : M unit :=
  match n with
  | 0 => pass
  | S n' =>
      command ← input "Notebook> ";
      CommandProcessor.process command;;
      loop n'
  end.

Definition main (n : nat) : M unit :=
  Notebook.init;;
  Notebook.reset_screen;;
  loop n.

(** ** Notions used in the statements *)

(** A name that is a single path component, as a file name stem is. *)
Definition valid_name (name : string) : Prop := ¬ Str.In_str "/" name.

(** The notes folder exists as the directory [D], the relative path
    [notes] that [display_notes] reads from denotes the same directory, and
    the folder holds files only. *)
Record folder_ok (sd : string) (wd : list string) (m : gmap (list string) node)
    (D : list string) : Prop := {
  folder_abs : resolve_dir m wd (os_path.join sd "notes") = inr D;
  folder_rel : resolve_dir m wd "notes" = inr D;
  folder_flat : ∀ c, m !! (D ++ [c]) ≠ Some Dir;
}.
Definition healthy (s : state) (D : list string) : Prop :=
  folder_ok (script_dir s) (cwd s) (fs s) D.

(** A note whose file is there, under the path the constructor derives from
    its name. *)
Definition backed (s : state) (D : list string) (note : Note.t) : Prop :=
  valid_name (Note.name note)
  ∧ Note.filepath note = os_path.join (notes_folder s) (Note.name note +:+ ".txt")
  ∧ ∃ data, fs s !! (D ++ [Note.name note +:+ ".txt"]) = Some (File data).

(** What reading the file at the path [p] gives. *)
Definition read_file (m : gmap (list string) node) (wd : list string) (p : string)
  : result string :=
  match resolve m wd p with
  | inl e => Raise e
  | inr k =>
      match m !! k with
      | Some (File data) => Ok data
      | Some Dir => Raise (IsADirectoryError p)
      | None => Raise (FileNotFoundError p)
      end
  end.

(** The file that [display_notes] opens for a note can be read. *)
Definition readable (s : state) (note : Note.t) : Prop :=
  ∃ data, read_file (fs s) (cwd s) ("notes/" +:+ Note.name note +:+ ".txt") = Ok data.

(** No two notes share a name under case-insensitive comparison. *)
Definition unique_names (l : list Note.t) : Prop :=
  NoDup ((λ note, Str.lower (Note.name note)) <$> l).

(** Equality of strings up to the case of the ASCII letters. *)
Definition ascii_upper (c : ascii) : bool :=
  (65 <=? nat_of_ascii c) && (nat_of_ascii c <=? 90).
Definition eq_ascii_case_char (a b : ascii) : Prop :=
  a = b
  ∨ (ascii_upper a = true ∧ nat_of_ascii b = nat_of_ascii a + 32)
  ∨ (ascii_upper b = true ∧ nat_of_ascii a = nat_of_ascii b + 32).
Fixpoint eq_ascii_case (s1 s2 : string) : Prop :=
  match s1, s2 with
  | "", "" => True
  | String a s1', String b s2' => eq_ascii_case_char a b ∧ eq_ascii_case s1' s2'
  | _, _ => False
  end.

(** The table of a list of notes, and what [reset_screen] writes. *)
Definition row_of (i : nat) (note : Note.t) : row :=
  Row i (Str.replace_char "_" " " (Note.name note)) (Note.edited_time note)
      (Notebook.formatted_content (Note.content note)).
Definition table_of (l : list Note.t) : list row := imap (λ i, row_of (S i)) l.
Definition screen (l : list Note.t) : list event :=
  [ Clear; Print Notebook.logo;
    Print (Str.nl +:+ "Type 'help' to see the list of commands" +:+ Str.nl);
    Table (table_of l); Print Str.nl ].

Definition say (e : list event) (s : state) : state := set_stdout (stdout s ++ e) s.

(** An operation leaves the observation [f] of the state as it was. *)
Definition keeps {A B} (f : state → B) (c : M A) : Prop := ∀ s, f (c s).2 = f s.

(** The names of the notes, in order. *)
Definition names (s : state) : list string := Note.name <$> notes s.

(** The question [delete_note] asks. *)
Definition delete_prompt (name : string) : string :=
  "Are you sure you want to delete the note '" +:+ name +:+ "'? (yes/no): ".

(** The command lines that are user errors, with the message each gets. *)
Inductive user_error (l : list Note.t) : list string → string → Prop :=
  | unknown_command token args :
      CommandProcessor.commands !! Str.lower token = None →
      user_error l (token :: args) "Invalid command"
  | create_without_name token :
      Str.lower token = "create" →
      user_error l [token] "Please provide a note name."
  | create_duplicate token arg args :
      Str.lower token = "create" →
      Notebook.note_exists l (Str.join "_" (arg :: args)) = true →
      user_error l (token :: arg :: args) Notebook.exists_msg
  | edit_without_name token :
      Str.lower token = "edit" →
      user_error l [token] "Please provide a note name."
  | edit_not_found token arg args :
      Str.lower token = "edit" →
      Notebook.get_note l (Str.join "_" (arg :: args)) = None →
      user_error l (token :: arg :: args) "Note not found."
  | delete_without_name token :
      Str.lower token = "delete" →
      user_error l [token] "Please provide a note name."
  | rename_without_names token args :
      Str.lower token = "rename" → length args ≤ 1 →
      user_error l (token :: args) "Please provide the old and new note names."
  | rename_duplicate token old_name arg args :
      Str.lower token = "rename" →
      Str.lower old_name ≠ Str.lower (Str.join "_" (arg :: args)) →
      Notebook.note_exists l (Str.join "_" (arg :: args)) = true →
      user_error l (token :: old_name :: arg :: args) Notebook.exists_msg.

(** ** States for the worked scenarios *)

(** The script lives in [/app], its folder [/app/notes] holds [files]. *)
Definition disk (files : list (string * string)) : gmap (list string) node :=
  list_to_map
    ([ ([], Dir); (["app"], Dir); (["home"], Dir); (["app"; "notes"], Dir) ]
     ++ ((λ f : string * string, (["app"; "notes"; f.1], File f.2)) <$> files)).

(** The state in which [main] starts, run from the directory [wd]. *)
Definition boot (wd : list string) (files : list (string * string))
    (input : list string) : state :=
  State "/app" wd [] (disk files) input [] 0 [].

(** The same once [Notebook()] has loaded the notes. *)
Definition loaded (wd : list string) (files : list (string * string))
    (input : list string) : state :=
  (Notebook.init (boot wd files input)).2.

(** One note [a] with the text [x], loaded, the program run from [/app]. *)
Definition note_a : Note.t := Note.mk "a" "x" 0 "/app/notes/a.txt".
Definition one_note (input : list string) : state :=
  State "/app" ["app"] [note_a] (disk [("a.txt", "x")]) input [] 1 [].

(** Two notes, of 60 and of 40 characters. *)
Definition sixty : string :=
  "123456789012345678901234567890123456789012345678901234567890".
Definition forty : string := "1234567890123456789012345678901234567890".
Definition two_notes : state :=
  State "/app" ["app"]
    [Note.mk "long" sixty 0 "/app/notes/long.txt";
     Note.mk "short" forty 1 "/app/notes/short.txt"]
    (disk [("long.txt", sixty); ("short.txt", forty)]) [] [] 2 [].

(** ** Notions used in the further properties *)

(** A line of white space only. *)
Definition blank (line : string) : Prop :=
  ∀ c, Str.In_str c line → Str.isspace c = true.

(** One note made from the words [shopping list]. *)
Definition shopping_list : Note.t :=
  Note.mk "shopping_list" "eggs" 1 "/app/notes/shopping_list.txt".
Definition shopping : state :=
  State "/app" ["app"] [shopping_list] (disk [("shopping_list.txt", "eggs")]) [] [] 2 [].

(** The note that [load_notes] makes of the entry [f] of the folder [D]. *)
Definition loaded_from (s : state) (D : list string) (f : string) (note : Note.t)
  : Prop :=
  Note.name note = os_path.splitext_root f
  ∧ fs s !! (D ++ [f]) = Some (File (Note.content note))
  ∧ Note.filepath note = os_path.join (notes_folder s) (Note.name note +:+ ".txt").

(** An entry whose stem [splitext] gives back: before [.txt] there is more
    than dots. *)
Definition proper_stem (f : string) : Prop :=
  ∀ stem, Str.strip_txt f = Some stem → Str.all_dots stem = false.

(** A note in memory whose path leads through a directory that is not
    there, as [create a/b] leaves it. *)
Definition lost : state :=
  State "/app" ["app"] [Note.mk "a/b" "x" 0 "/app/notes/a/b.txt"] (disk []) [] [] 1 [].

(** The name and the path of every note, with the directory the paths are
    derived from. *)
Definition paths (s : state) : string * list (string * string) :=
  (script_dir s, (λ n, (Note.name n, Note.filepath n)) <$> notes s).

(** The path of every note is [<notes_folder>/<name>.txt]. *)
Definition path_of (sd : string) (np : string * string) : Prop :=
  np.2 = os_path.join (os_path.join sd "notes") (np.1 +:+ ".txt").
Definition paths_ok (s : state) : Prop :=
  Forall (path_of (paths s).1) (paths s).2.

(** What [load_notes] leaves alone besides the files: the directory of the
    script and the notes. *)
Definition loader_frame (s : state) : string * list Note.t := (script_dir s, notes s).

(** The part of the state that notes and files live in. *)
Definition core (s : state)
  : string * list string * list Note.t * gmap (list string) node :=
  (script_dir s, cwd s, notes s, fs s).

(** The notes mirror the folder: the folder is in order, every note has its
    file there under its name, and no two names are equal up to case. *)
Definition mirror (s : state) (D : list string) : Prop :=
  healthy s D ∧ Forall (backed s D) (notes s) ∧ unique_names (notes s).

(** An operation keeps the property [J] of the state, however it ends. *)
Definition preserves {A} (J : state → Prop) (c : M A) : Prop :=
  ∀ s, J s → J (c s).2.

(** An operation keeps the property [J] of the state, and raises only
    exceptions in [E]. *)
Definition holds {A} (J : state → Prop) (E : exn → Prop) (c : M A) : Prop :=
  ∀ s, J s → J (c s).2 ∧ ∀ e, (c s).1 = Raise e → E e.

(** The exceptions a command raises when no file operation fails: the input
    has ended, the program exits, or [delete] has called the method that
    [Note] lacks. *)
Definition no_file_error (e : exn) : Prop :=
  e = EOFError ∨ e = SystemExit
  ∨ e = AttributeError "'Note' object has no attribute 'delete'".

(** No line still to be read holds a slash. *)
Definition calm (s : state) : Prop :=
  Forall (λ line, ¬ Str.In_str "/" line) (stdin s).

(** A folder that loads into notes that mirror it: it holds files only, no
    name in it holds a slash, each [.txt] file is named by more than dots, and
    no two of them by the same name up to case. *)
Definition tidy (s : state) (D : list string) : Prop :=
  healthy s D
  ∧ Forall valid_name (entries (fs s) D)
  ∧ Forall proper_stem (entries (fs s) D)
  ∧ NoDup (Str.lower <$> (os_path.splitext_root
                            <$> List.filter Str.endswith_txt (entries (fs s) D))).

(** What stays of a state while one note, whose file is [k], is edited: the
    directories, the names and paths [P] of the notes, every file but [k],
    and [k] being a file. *)
Definition edit_frame (sd : string) (wd : list string) (P : list (string * string))
    (m0 : gmap (list string) node) (k : list string) (s : state) : Prop :=
  script_dir s = sd ∧ cwd s = wd ∧ (paths s).2 = P
  ∧ (∀ k', k' ≠ k → fs s !! k' = m0 !! k')
  ∧ ∃ d, fs s !! k = Some (File d).

(** A notes folder that holds, besides [z.txt], a directory named
    [d.txt]. *)
Definition cluttered : state :=
  State "/app" ["app"] []
    (<[["app"; "notes"; "d.txt"] := Dir]> (disk [("z.txt", "x")])) [] [] 0 [].

(** The note [a] about to be edited: it holds [x] in memory, its file holds
    [on disk], and the user will save [saved] in the editor, or nothing, and
    then press Enter. *)
Definition editing (saved : option string) : state :=
  State "/app" ["app"] [note_a] (disk [("a.txt", "on disk")]) [""] [] 1 [Launched saved].

(** The note [a] in memory, its file gone from the folder. *)
Definition orphan (input : list string) : state :=
  State "/app" ["app"] [note_a] (disk []) input [] 1 [].

(** ** Strings and paths *)

Lemma append_cons c (a b : string) : String c a +:+ b = String c (a +:+ b).
Proof. reflexivity. Qed.

Lemma append_nil (b : string) : "" +:+ b = b.
Proof. reflexivity. Qed.

Lemma app_assoc_str (a b c : string) : (a +:+ b) +:+ c = a +:+ b +:+ c.
Proof. induction a as [|x a IH]; [done|]. rewrite !append_cons. by rewrite IH. Qed.

Lemma length_app_str (a b : string) :
  String.length (a +:+ b) = String.length a + String.length b.
Proof. induction a as [|x a IH]; [done|]. rewrite append_cons. cbn. by rewrite IH. Qed.

Lemma append_inj_r (a b c : string) : a +:+ c = b +:+ c → a = b.
Proof.
  revert b. induction a as [|x a IH]; intros [|y b] H; [done|..].
  - apply (f_equal String.length) in H.
    rewrite !length_app_str in H. cbn in H. lia.
  - apply (f_equal String.length) in H.
    rewrite !length_app_str in H. cbn in H. lia.
  - rewrite !append_cons in H. injection H as -> H. f_equal. by apply IH.
Qed.

Lemma In_str_app c (a b : string) :
  Str.In_str c (a +:+ b) ↔ Str.In_str c a ∨ Str.In_str c b.
Proof.
  induction a as [|x a IH]; [rewrite append_nil; cbn; tauto|].
  rewrite append_cons. cbn. rewrite IH. tauto.
Qed.

Lemma fields_nonempty s : Str.fields s ≠ [].
Proof.
  induction s as [|c s IH]; [done|]. cbn.
  case_decide; [done|]. by destruct (Str.fields s).
Qed.

Lemma fields_plain s : ¬ Str.In_str "/" s → Str.fields s = [s].
Proof.
  induction s as [|c s IH]; [done|]. cbn. intros H.
  case_decide; [subst; tauto|]. rewrite IH; [done|tauto].
Qed.

Lemma fields_sep (a b : string) :
  Str.fields (a +:+ "/" +:+ b) = Str.fields a ++ Str.fields b.
Proof.
  induction a as [|c a IH]; [done|]. rewrite append_cons. cbn.
  case_decide; [by rewrite IH|].
  rewrite IH. pose proof (fields_nonempty a). by destruct (Str.fields a).
Qed.

Lemma startswith_slash_app (a b : string) :
  a ≠ "" → Str.startswith_slash (a +:+ b) = Str.startswith_slash a.
Proof. by destruct a. Qed.

Lemma endswith_slash_app (a b : string) :
  b ≠ "" → Str.endswith_slash (a +:+ b) = Str.endswith_slash b.
Proof.
  intros Hb. induction a as [|c a IH]; [done|].
  rewrite append_cons. cbn. rewrite IH. destruct (a +:+ b) eqn:E; [|done].
  destruct a; [|done]. by destruct b.
Qed.

Lemma txt_not_special (name : string) :
  let f := name +:+ ".txt" in f ≠ "" ∧ f ≠ "." ∧ f ≠ "..".
Proof.
  cbn. repeat split; intros H; apply (f_equal String.length) in H;
    rewrite length_app_str in H; cbn in H; lia.
Qed.

Lemma txt_no_slash (name : string) :
  valid_name name → ¬ Str.In_str "/" (name +:+ ".txt").
Proof.
  intros Hv [H|H]%In_str_app; [done|]. cbn in H.
  by repeat destruct H as [H|H].
Qed.

Lemma txt_relative (name : string) :
  valid_name name → Str.startswith_slash (name +:+ ".txt") = false.
Proof.
  destruct name as [|c name]; [done|]. cbn. intros H.
  apply bool_decide_eq_false. intros ->. apply H. by left.
Qed.

(** ** The notes folder *)

Lemma notes_folder_shape s : ∃ pre, notes_folder s = pre +:+ "notes".
Proof.
  unfold notes_folder, os_path.join. cbn.
  destruct (_ || _).
  - by exists (script_dir s).
  - exists (script_dir s +:+ "/"). symmetry. apply app_assoc_str.
Qed.

Lemma join_notes_folder s f :
  Str.startswith_slash f = false →
  os_path.join (notes_folder s) f = notes_folder s +:+ "/" +:+ f.
Proof.
  intros Hf. destruct (notes_folder_shape s) as [pre Hpre].
  unfold os_path.join. rewrite Hf, Hpre, endswith_slash_app by done.
  replace (bool_decide (pre +:+ "notes" = "")) with false; [done|].
  symmetry. apply bool_decide_eq_false. by destruct pre.
Qed.

(** ** Path resolution *)

Section walking.
Context (m : gmap (list string) node).

Lemma walk_app p d cs cs' :
  walk m p d (cs ++ cs') =
    match walk m p d cs with
    | inr d' => walk m p d' cs'
    | inl e => inl e
    end.
Proof.
  revert d. induction cs as [|c cs IH]; intros d; [done|].
  cbn. destruct (enter m p d c); [done|]. apply IH.
Qed.

Lemma enter_inr p p' d c D : enter m p d c = inr D → enter m p' d c = inr D.
Proof.
  unfold enter. repeat case_decide; try done.
  by destruct (m !! (d ++ [c])) as [[]|].
Qed.

Lemma walk_inr p p' d cs D : walk m p d cs = inr D → walk m p' d cs = inr D.
Proof.
  revert d. induction cs as [|c cs IH]; intros d; [done|]. cbn.
  destruct (enter m p d c) as [|d'] eqn:E; [done|].
  rewrite (enter_inr _ p' _ _ _ E). apply IH.
Qed.

Lemma resolve_in_dir wd dir f D :
  dir ≠ "" → resolve_dir m wd dir = inr D →
  ¬ Str.In_str "/" f → f ≠ "" → f ≠ "." → f ≠ ".." →
  resolve m wd (dir +:+ "/" +:+ f) = inr (D ++ [f]).
Proof.
  intros Hdir HD Hf H0 H1 H2. unfold resolve, resolve_dir, start in *.
  rewrite fields_sep, (fields_plain f), startswith_slash_app by done.
  rewrite removelast_last, last_last.
  rewrite (walk_inr _ _ _ _ _ HD). unfold child.
  rewrite decide_False by tauto. by rewrite decide_False.
Qed.
End walking.

Lemma walk_mono (m m' : gmap (list string) node) p d cs D :
  (∀ k, m !! k = Some Dir → m' !! k = Some Dir) →
  walk m p d cs = inr D → walk m' p d cs = inr D.
Proof.
  intros Hm. revert d. induction cs as [|c cs IH]; intros d; [done|]. cbn.
  destruct (enter m p d c) as [|d'] eqn:E; [done|].
  assert (enter m' p d c = inr d') as ->; [|apply IH].
  unfold enter in *. repeat case_decide; try done.
  destruct (m !! (d ++ [c])) as [[]|] eqn:El; try done.
  by rewrite (Hm _ El).
Qed.

Lemma resolve_mono (m m' : gmap (list string) node) wd p k :
  (∀ k', m !! k' = Some Dir → m' !! k' = Some Dir) →
  resolve m wd p = inr k → resolve m' wd p = inr k.
Proof.
  intros Hm. unfold resolve.
  destruct (walk m p _ _) as [|d] eqn:E; [done|].
  by rewrite (walk_mono _ _ _ _ _ _ Hm E).
Qed.

Lemma healthy_mono s s' D :
  script_dir s' = script_dir s → cwd s' = cwd s →
  (∀ k, fs s !! k = Some Dir ↔ fs s' !! k = Some Dir) →
  healthy s D → healthy s' D.
Proof.
  intros Hsd Hwd Hfs [H1 H2 H3]. unfold healthy, resolve_dir in *.
  split; unfold resolve_dir; rewrite ?Hsd, ?Hwd.
  - eapply walk_mono; [|done]. intros k. apply Hfs.
  - eapply walk_mono; [|done]. intros k. apply Hfs.
  - intros c Hc. apply (H3 c). by apply Hfs.
Qed.

Lemma resolve_backing s D name :
  healthy s D → valid_name name →
  resolve (fs s) (cwd s) (os_path.join (notes_folder s) (name +:+ ".txt"))
  = inr (D ++ [name +:+ ".txt"]).
Proof.
  intros [H1 _ _] Hv. rewrite join_notes_folder by by apply txt_relative.
  destruct (txt_not_special name) as (?&?&?).
  apply resolve_in_dir; try done; [|by apply txt_no_slash].
  destruct (notes_folder_shape s) as [pre ->]. by destruct pre.
Qed.

Lemma resolve_display s D name :
  healthy s D → valid_name name →
  resolve (fs s) (cwd s) ("notes/" +:+ name +:+ ".txt") = inr (D ++ [name +:+ ".txt"]).
Proof.
  intros [_ H2 _] Hv. destruct (txt_not_special name) as (?&?&?).
  change ("notes/" +:+ name +:+ ".txt") with ("notes" +:+ "/" +:+ name +:+ ".txt").
  apply resolve_in_dir; try done. by apply txt_no_slash.
Qed.

(** ** Running the primitives *)

(** Computes the fields of a state built by the setters from a state given
    by its fields. *)
Ltac norm_state :=
  cbv beta iota delta
    [say set_stdout set_stdin set_notes set_fs set_clock set_editor
     script_dir cwd notes fs stdin stdout clock editor].
Ltac norm_note :=
  cbv beta iota delta
    [Note.set_name Note.set_content Note.set_edited_time Note.set_filepath
     Note.name Note.content Note.edited_time Note.filepath].

Lemma bind_ok {A B} (c : M A) (f : A → M B) s a s' :
  c s = (Ok a, s') → (c ≫= f) s = f a s'.
Proof. intros H. unfold mbind, M_bind. by rewrite H. Qed.

Lemma bind_raise {A B} (c : M A) (f : A → M B) s e s' :
  c s = (Raise e, s') → (c ≫= f) s = (Raise e, s').
Proof. intros H. unfold mbind, M_bind. by rewrite H. Qed.

Lemma open_read_ok s p k data :
  resolve (fs s) (cwd s) p = inr k → fs s !! k = Some (File data) →
  open_read p s = (Ok data, s).
Proof.
  intros Hk Hf. unfold open_read, locate, mbind, M_bind, gets. cbn.
  rewrite Hk. cbn. by rewrite Hf.
Qed.

Lemma open_write_ok s p k data :
  resolve (fs s) (cwd s) p = inr k → fs s !! k ≠ Some Dir →
  open_write p data s = (Ok (), set_fs (<[k := File data]> (fs s)) s).
Proof.
  intros Hk Hf. unfold open_write, locate, mbind, M_bind, gets. cbn.
  rewrite Hk. cbn. by destruct (fs s !! k) as [[]|].
Qed.

Lemma open_read_state p s : (open_read p s).2 = s.
Proof.
  unfold open_read, locate, mbind, M_bind, gets. cbn.
  destruct (resolve _ _ _); [done|]. cbn. by destruct (fs s !! _) as [[]|].
Qed.

Lemma emit_run e s : emit e s = (Ok (), say [e] s).
Proof. reflexivity. Qed.

Lemma say_say e e' s : say e' (say e s) = say (e ++ e') s.
Proof. unfold say, set_stdout. cbn. by rewrite app_assoc. Qed.

Lemma open_read_run p s : open_read p s = (read_file (fs s) (cwd s) p, s).
Proof.
  unfold open_read, read_file, locate, mbind, M_bind, gets. cbn.
  destruct (resolve _ _ _); [done|]. cbn. by destruct (fs s !! _) as [[]|].
Qed.

Lemma readable_frame s s' note :
  fs s' = fs s → cwd s' = cwd s → readable s note → readable s' note.
Proof.
  intros Hfs Hwd [data H]. exists data. by rewrite Hfs, Hwd.
Qed.

Lemma read_file_ok m wd p k data :
  resolve m wd p = inr k → m !! k = Some (File data) → read_file m wd p = Ok data.
Proof. intros Hk Hf. unfold read_file. by rewrite Hk, Hf. Qed.

Lemma backed_readable s D note : healthy s D → backed s D note → readable s note.
Proof.
  intros Hh (Hv & _ & data & Hf). exists data.
  eapply read_file_ok; [by apply resolve_display|done].
Qed.

(** ** [display_notes] and [reset_screen] *)

Lemma display_loop_cases i l table s :
  Notebook.display_loop i l table s = (Ok (table ++ imap (λ j, row_of (i + j)) l), s)
  ∨ ∃ e, Notebook.display_loop i l table s = (Raise e, s).
Proof.
  revert i table. induction l as [|note l IH]; intros i table.
  - left. cbn. by rewrite app_nil_r.
  - cbn. unfold mbind, M_bind. rewrite open_read_run.
    destruct (read_file _ _ _) as [data|e]; [|by right; exists e].
    destruct (IH (S i) (table ++ [Row i (Str.replace_char "_" " " (Note.name note))
      (Note.edited_time note) (Notebook.formatted_content (Note.content note))]))
      as [->|[e ->]]; [left|by right; exists e].
    rewrite <-app_assoc. cbn. rewrite Nat.add_0_r. do 4 f_equal.
    apply imap_ext. intros j x _. cbn. f_equal. lia.
Qed.

Lemma display_loop_ok i l table s :
  Forall (readable s) l →
  Notebook.display_loop i l table s = (Ok (table ++ imap (λ j, row_of (i + j)) l), s).
Proof.
  intros H. revert i table. induction H as [|note l [data Hd] _ IH]; intros i table.
  - cbn. by rewrite app_nil_r.
  - cbn. erewrite bind_ok by (rewrite open_read_run, Hd; reflexivity).
    rewrite IH, <-app_assoc. cbn.
    rewrite Nat.add_0_r. do 4 f_equal. apply imap_ext. intros j x _. cbn.
    f_equal. lia.
Qed.

Lemma display_notes_ok s :
  Forall (readable s) (notes s) →
  Notebook.display_notes s = (Ok (), say [Table (table_of (notes s))] s).
Proof.
  intros H. unfold Notebook.display_notes.
  erewrite bind_ok by reflexivity.
  erewrite bind_ok by by apply display_loop_ok.
  apply emit_run.
Qed.

Lemma display_notes_cases s :
  Notebook.display_notes s = (Ok (), say [Table (table_of (notes s))] s)
  ∨ ∃ e, Notebook.display_notes s = (Raise e, s).
Proof.
  unfold Notebook.display_notes. erewrite bind_ok by reflexivity.
  destruct (display_loop_cases 1 (notes s) [] s) as [H|[e H]].
  - left. erewrite bind_ok by done. apply emit_run.
  - right. exists e. by erewrite bind_raise.
Qed.

Lemma reset_screen_ok s :
  Forall (readable s) (notes s) →
  Notebook.reset_screen s = (Ok (), say (screen (notes s)) s).
Proof.
  intros H. unfold Notebook.reset_screen, os.system_clear, Notebook.print_logo, print.
  repeat (erewrite bind_ok by apply emit_run).
  erewrite bind_ok.
  2:{ apply display_notes_ok. eapply Forall_impl; [done|].
      intros note. by apply readable_frame. }
  rewrite emit_run, !say_say. done.
Qed.

Lemma reset_screen_cases s :
  Notebook.reset_screen s = (Ok (), say (screen (notes s)) s)
  ∨ ∃ e, Notebook.reset_screen s = (Raise e, say (take 3 (screen (notes s))) s).
Proof.
  unfold Notebook.reset_screen, os.system_clear, Notebook.print_logo, print.
  repeat (erewrite bind_ok by apply emit_run).
  unfold mbind, M_bind.
  match goal with |- context [Notebook.display_notes ?s0] =>
    destruct (display_notes_cases s0) as [H|[e H]]; rewrite H end.
  - left. rewrite emit_run, !say_say. done.
  - right. exists e. rewrite !say_say. done.
Qed.

(** ** Running the methods of [Note] *)

Lemma input_ok prompt s line rest :
  stdin s = line :: rest →
  input prompt s = (Ok line, set_stdin rest (say [Prompt prompt] s)).
Proof.
  intros H. unfold input. erewrite bind_ok by apply emit_run.
  erewrite bind_ok by reflexivity. cbn. by rewrite H.
Qed.

Lemma input_eof prompt s :
  stdin s = [] → input prompt s = (Raise EOFError, say [Prompt prompt] s).
Proof.
  intros H. unfold input. erewrite bind_ok by apply emit_run.
  erewrite bind_ok by reflexivity. cbn. by rewrite H.
Qed.

Lemma Note_init_run name content s :
  Note_init name content s =
    (Ok (Note.mk name (default "" content) (clock s)
           (os_path.join (notes_folder s) (name +:+ ".txt"))),
     set_clock (S (clock s)) s).
Proof. reflexivity. Qed.

Lemma alter_as_insert {A} (f : A → A) (l : list A) i x :
  l !! i = Some x → alter f i l = <[i := f x]> l.
Proof.
  intros Hi. apply list_eq. intros j. destruct (decide (i = j)) as [<-|Hne].
  - rewrite list_lookup_insert_eq by by eapply lookup_lt_Some.
    by rewrite list_lookup_alter_eq, Hi.
  - by rewrite list_lookup_insert_ne, list_lookup_alter_ne by done.
Qed.

Lemma this_run self s n : notes s !! self = Some n → this self s = (Ok n, s).
Proof. intros Hn. unfold this, gets. by rewrite (list_lookup_total_correct _ _ _ Hn). Qed.

Lemma setattr_run self f s n :
  notes s !! self = Some n →
  setattr self f s = (Ok (), set_notes (<[self := f n]> (notes s)) s).
Proof. intros Hn. unfold setattr, modify. by rewrite (alter_as_insert _ _ _ _ Hn). Qed.

Lemma Note_save_ok s self n k :
  notes s !! self = Some n →
  resolve (fs s) (cwd s) (Note.filepath n) = inr k →
  fs s !! k ≠ Some Dir →
  Note_save self s =
    (Ok (), set_notes (<[self := Note.set_edited_time (clock s) n]> (notes s))
              (set_clock (S (clock s))
                 (set_fs (<[k := File (Note.content n)]> (fs s)) s))).
Proof.
  intros Hn Hk Hf. unfold Note_save.
  erewrite bind_ok by by apply this_run.
  erewrite bind_ok by by apply open_write_ok.
  erewrite bind_ok by reflexivity.
  by erewrite setattr_run by exact Hn.
Qed.

(** ** Files and notes under writes *)

Lemma dirs_insert_file (m : gmap (list string) node) k data k' :
  m !! k ≠ Some Dir →
  m !! k' = Some Dir ↔ <[k := File data]> m !! k' = Some Dir.
Proof.
  intros Hk. destruct (decide (k = k')) as [->|Hne].
  - rewrite lookup_insert_eq. split; [done|congruence].
  - by rewrite lookup_insert_ne.
Qed.

Lemma dirs_delete_file (m : gmap (list string) node) k data k' :
  m !! k = Some (File data) →
  m !! k' = Some Dir ↔ base.delete k m !! k' = Some Dir.
Proof.
  intros Hk. destruct (decide (k = k')) as [->|Hne].
  - rewrite lookup_delete_eq. split; congruence.
  - by rewrite lookup_delete_ne.
Qed.

Lemma readable_by_name s D note :
  healthy s D → valid_name (Note.name note) →
  (∃ data, fs s !! (D ++ [Note.name note +:+ ".txt"]) = Some (File data)) →
  readable s note.
Proof.
  intros Hh Hv [data Hf]. exists data.
  eapply read_file_ok; [by apply resolve_display|done].
Qed.

Lemma get_note_names l l' name :
  Note.name <$> l = Note.name <$> l' →
  Notebook.get_note l name = Notebook.get_note l' name.
Proof.
  unfold Notebook.get_note. revert l'.
  induction l as [|x l IH]; intros [|x' l'] H; try done.
  injection H as Hx Hl. cbn.
  destruct (decide (Notebook.same_name name x)) as [H1|H1],
    (decide (Notebook.same_name name x')) as [H2|H2];
    unfold Notebook.same_name in H1, H2; rewrite ?Hx in *; try done.
  specialize (IH _ Hl).
  destruct (list_find _ l) as [[]|], (list_find _ l') as [[]|]; cbn in *; congruence.
Qed.

Lemma note_exists_names l l' name :
  Note.name <$> l = Note.name <$> l' →
  Notebook.note_exists l name = Notebook.note_exists l' name.
Proof.
  unfold Notebook.note_exists. revert l'.
  induction l as [|x l IH]; intros [|x' l'] H; try done.
  injection H as Hx Hl. cbn. rewrite (IH _ Hl). f_equal.
  apply bool_decide_ext. unfold Notebook.same_name. by rewrite Hx.
Qed.

Lemma note_exists_true l name :
  Notebook.note_exists l name = true ↔
  ∃ note, note ∈ l ∧ Str.lower (Note.name note) = Str.lower name.
Proof.
  unfold Notebook.note_exists. rewrite existsb_exists. split.
  - intros (x & Hx & H). exists x. split; [by apply list_elem_of_In|].
    by apply bool_decide_eq_true in H.
  - intros (x & Hx & H). exists x. split; [by apply list_elem_of_In|].
    by apply bool_decide_eq_true.
Qed.

Lemma note_exists_false l name :
  Notebook.note_exists l name = false ↔
  ∀ note, note ∈ l → Str.lower (Note.name note) ≠ Str.lower name.
Proof.
  rewrite <-not_true_iff_false, note_exists_true. split.
  - intros H note Hin Hl. apply H. by exists note.
  - intros H (note & Hin & Hl). by apply (H note).
Qed.

Lemma get_note_Some l name i :
  Notebook.get_note l name = Some i ↔
  ∃ note, l !! i = Some note ∧ Str.lower (Note.name note) = Str.lower name
          ∧ ∀ j x, l !! j = Some x → j < i → Str.lower (Note.name x) ≠ Str.lower name.
Proof.
  unfold Notebook.get_note. split.
  - intros ([j note] & H & [= ->])%fmap_Some. apply list_find_Some in H.
    exists note. exact H.
  - intros (note & H). apply fmap_Some. exists (i, note). split; [|done].
    apply list_find_Some. exact H.
Qed.

Lemma get_note_None l name :
  Notebook.get_note l name = None ↔ Notebook.note_exists l name = false.
Proof.
  unfold Notebook.get_note. rewrite fmap_None, list_find_None, note_exists_false.
  by rewrite Forall_forall.
Qed.

(** ** C6: creating a note under a name that is taken *)

(** C6. When [note_exists(name)] holds, [create_note(name)] prints the
    conflict message and changes nothing else: the list of notes, every
    note, the files, the pending input and the clock are as before. *)
Theorem create_note_conflict (s : state) (name : string) :
  Notebook.note_exists (notes s) name = true →
  Notebook.create_note name s = (Ok (), say [Print Notebook.exists_msg] s)
  ∧ notes (Notebook.create_note name s).2 = notes s
  ∧ fs (Notebook.create_note name s).2 = fs s.
Proof.
  intros H. unfold Notebook.create_note.
  erewrite bind_ok by reflexivity. rewrite H. done.
Qed.

(** ** C1: create, then get *)

Lemma get_note_app_new l note name :
  Notebook.note_exists l name = false → Note.name note = name →
  Notebook.get_note (l ++ [note]) name = Some (length l).
Proof.
  intros Hex Hname. unfold Notebook.get_note.
  assert (list_find (Notebook.same_name name) l = None) as Hnone.
  { apply list_find_None, Forall_forall. intros x Hx Hs.
    apply not_true_iff_false in Hex. apply Hex.
    apply existsb_exists. exists x. split; [by apply list_elem_of_In|].
    by apply bool_decide_eq_true. }
  rewrite list_find_app_r by done. cbn.
  rewrite decide_True by (unfold Notebook.same_name; by rewrite Hname).
  cbn. f_equal; lia.
Qed.


(** ** C2: [note_exists] *)

Lemma lower_char_ascii_case a b :
  eq_ascii_case_char a b → Str.lower_char a = Str.lower_char b.
Proof.
  assert (∀ x y, ascii_upper x = true → nat_of_ascii y = nat_of_ascii x + 32 →
                 Str.lower_char x = Str.lower_char y) as Hup.
  { intros x y Hx Hy. unfold Str.lower_char, ascii_upper in *. cbv zeta.
    rewrite Hy, Hx, orb_true_l.
    apply andb_true_iff in Hx as [H1%Nat.leb_le H2%Nat.leb_le].
    match goal with |- _ = (if ?b then _ else _) => replace b with false end.
    - by rewrite <-Hy, ascii_nat_embedding.
    - symmetry. apply orb_false_iff. split; apply andb_false_iff.
      + right. apply Nat.leb_gt. lia.
      + left. apply andb_false_iff. left. apply Nat.leb_gt. lia. }
  intros [->|[[H1 H2]|[H1 H2]]]; [done|by apply Hup|symmetry; by apply Hup].
Qed.

Lemma lower_ascii_case s1 s2 : eq_ascii_case s1 s2 → Str.lower s1 = Str.lower s2.
Proof.
  revert s2. induction s1 as [|a s1 IH]; intros [|b s2]; cbn; try done.
  intros [Hc Hs]. by rewrite (lower_char_ascii_case _ _ Hc), (IH _ Hs).
Qed.

(** C2. [note_exists(m)] is true as soon as some note is named like [m] up
    to the case of ASCII letters, and in general exactly when the lower-cased
    name of some note equals the lower-cased [m]; it is false when no note's
    lower-cased name does. *)
Theorem note_exists_case_insensitive (l : list Note.t) (m : string) :
  (∀ note, note ∈ l → eq_ascii_case m (Note.name note) →
           Notebook.note_exists l m = true)
  ∧ (Notebook.note_exists l m = true ↔
     ∃ note, note ∈ l ∧ Str.lower (Note.name note) = Str.lower m)
  ∧ ((∀ note, note ∈ l → Str.lower (Note.name note) ≠ Str.lower m) →
     Notebook.note_exists l m = false).
Proof.
  split_and!.
  - intros note Hin Heq. apply note_exists_true. exists note. split; [done|].
    symmetry. by apply lower_ascii_case.
  - apply note_exists_true.
  - apply note_exists_false.
Qed.

(** ** What an operation leaves alone *)

Section keeps.
Context {B : Type} (f : state → B).

Lemma keeps_ret {A} (a : A) : keeps f (mret a).
Proof. done. Qed.
Lemma keeps_pass : keeps f pass.
Proof. done. Qed.
Lemma keeps_raise {A} e : keeps f (raise (A := A) e).
Proof. done. Qed.
Lemma keeps_gets {A} (g : state → A) : keeps f (gets g).
Proof. done. Qed.
Lemma keeps_modify g : (∀ s, f (g s) = f s) → keeps f (modify g).
Proof. intros H s. apply H. Qed.
Lemma keeps_bind {A C} (c : M A) (k : A → M C) :
  keeps f c → (∀ a, keeps f (k a)) → keeps f (c ≫= k).
Proof.
  intros Hc Hk s. unfold mbind, M_bind. specialize (Hc s).
  destruct (c s) as [[a|e] s']; cbn in *; [|done]. by rewrite Hk.
Qed.
Lemma keeps_try {A} (c : M A) h :
  keeps f c → (∀ e, keeps f (h e)) → keeps f (try_except c h).
Proof.
  intros Hc Hh s. unfold try_except. specialize (Hc s).
  destruct (c s) as [[a|e] s']; cbn in *; [done|].
  destruct (is_Exception e); [|done]. by rewrite Hh.
Qed.
End keeps.

Ltac keeps_step :=
  first
    [ apply keeps_bind; [|intros ?]
    | apply keeps_try; [|intros ?]
    | apply keeps_ret | apply keeps_pass | apply keeps_raise | apply keeps_gets
    | apply keeps_modify; intros ?; reflexivity
    | match goal with
      | |- keeps _ (match ?x with _ => _ end) => destruct x
      | |- keeps _ (if ?x then _ else _) => destruct x
      end ].
Ltac keeps := repeat keeps_step.

Lemma keeps_emit {B} (f : state → B) e :
  (∀ s v, f (set_stdout v s) = f s) → keeps f (emit e).
Proof. intros H s. apply H. Qed.

Create HintDb names_db.
Ltac keeps_names := repeat first [ solve [auto with names_db] | keeps_step ].

Lemma keeps_names_emit e : keeps names (emit e).
Proof. by apply keeps_emit. Qed.
Lemma keeps_names_print x : keeps names (print x).
Proof. by apply keeps_emit. Qed.
#[local] Hint Resolve keeps_names_emit keeps_names_print : names_db.
Lemma keeps_names_input p : keeps names (input p).
Proof. unfold input. keeps_names. Qed.
Lemma keeps_names_now : keeps names now.
Proof. unfold now. keeps_names. Qed.
Lemma keeps_names_locate p : keeps names (locate p).
Proof. unfold locate. keeps_names. Qed.
#[local] Hint Resolve keeps_names_input keeps_names_now keeps_names_locate : names_db.
Lemma keeps_names_open_read p : keeps names (open_read p).
Proof. unfold open_read. keeps_names. Qed.
Lemma keeps_names_open_write p data : keeps names (open_write p data).
Proof. unfold open_write. keeps_names. Qed.
#[local] Hint Resolve keeps_names_open_read keeps_names_open_write : names_db.
Lemma keeps_names_rename src dst : keeps names (os.rename src dst).
Proof. unfold os.rename. keeps_names. Qed.
Lemma keeps_names_exists p : keeps names (os.path_exists p).
Proof. unfold os.path_exists. keeps_names. Qed.
Lemma keeps_names_run_open p : keeps names (subprocess.run_open p).
Proof. unfold subprocess.run_open. keeps_names. Qed.
Lemma keeps_names_setattr i g :
  (∀ n, Note.name (g n) = Note.name n) → keeps names (setattr i g).
Proof.
  intros H s. unfold names, setattr, modify. cbn [snd notes set_notes].
  rewrite (list_fmap_alter _ g id); [by rewrite list_alter_id|].
  apply Forall_forall. intros x _. apply H.
Qed.
Lemma keeps_names_set_edited_time i t : keeps names (setattr i (Note.set_edited_time t)).
Proof. by apply keeps_names_setattr. Qed.
Lemma keeps_names_set_content i c : keeps names (setattr i (Note.set_content c)).
Proof. by apply keeps_names_setattr. Qed.
Lemma keeps_names_set_filepath i p : keeps names (setattr i (Note.set_filepath p)).
Proof. by apply keeps_names_setattr. Qed.
#[local] Hint Resolve keeps_names_rename keeps_names_exists keeps_names_run_open
  keeps_names_set_edited_time keeps_names_set_content keeps_names_set_filepath
  : names_db.
Lemma keeps_names_save i : keeps names (Note_save i).
Proof.
  unfold Note_save, this. keeps_names.
Qed.
Lemma keeps_names_load_content i : keeps names (Note_load_content i).
Proof.
  unfold Note_load_content, this. keeps_names.
Qed.
#[local] Hint Resolve keeps_names_save keeps_names_load_content : names_db.
Lemma keeps_names_edit i : keeps names (Note_edit i).
Proof. unfold Note_edit, this. keeps_names. Qed.
Lemma keeps_names_reset_screen : keeps names Notebook.reset_screen.
Proof.
  intros s. destruct (reset_screen_cases s) as [->|[e ->]]; done.
Qed.
#[local] Hint Resolve keeps_names_edit keeps_names_reset_screen : names_db.

(** ** C3: the names stay distinct *)

Lemma unique_names_alt l :
  unique_names l ↔ NoDup (Str.lower <$> (Note.name <$> l)).
Proof. unfold unique_names. by rewrite <-list_fmap_compose. Qed.

Lemma keeps_names_unique {A} (c : M A) s :
  keeps names c → unique_names (notes s) → unique_names (notes (c s).2).
Proof.
  intros Hc. rewrite !unique_names_alt.
  change (Note.name <$> notes (c s).2) with (names (c s).2). by rewrite Hc.
Qed.

Lemma elem_of_insert_inv {A} (l : list A) i x z :
  z ∈ <[i := x]> l → z = x ∨ z ∈ l.
Proof.
  revert i. induction l as [|y l IH]; intros [|i]; cbn; try by right.
  - intros [->|H]%elem_of_cons; [by left|right; by right].
  - intros [->|H]%elem_of_cons; [right; by left|].
    destruct (IH _ H); [by left|right; by right].
Qed.

Lemma NoDup_insert_fresh {A} (l : list A) i x :
  NoDup l → x ∉ l → NoDup (<[i := x]> l).
Proof.
  intros Hl. revert i. induction Hl as [|y l Hy Hl IH]; intros i Hx; [constructor|].
  apply not_elem_of_cons in Hx as [Hxy Hx]. destruct i as [|i]; cbn.
  - by constructor.
  - constructor; [|by apply IH].
    intros [->|Hin]%elem_of_insert_inv; [done|done].
Qed.

Lemma create_note_names name s :
  names (Notebook.create_note name s).2 = names s
  ∨ (Notebook.note_exists (notes s) name = false
     ∧ names (Notebook.create_note name s).2 = names s ++ [name]).
Proof.
  destruct s as [sd wd l m i o t ed].
  unfold Notebook.create_note. erewrite bind_ok by reflexivity.
  destruct (Notebook.note_exists _ name) eqn:Hex; [by left|].
  unfold notes in Hex. unfold stdin.
  destruct i as [|line rest].
  - left. by erewrite bind_raise by by apply input_eof.
  - right. split; [done|].
    erewrite bind_ok by by apply input_ok.
    erewrite bind_ok by apply Note_init_run.
    erewrite bind_ok by reflexivity.
    match goal with |- names (?c ?s0).2 = _ =>
      assert (keeps names c) as Hk; [|rewrite (Hk s0)] end.
    { keeps_names. }
    unfold names. norm_state. by rewrite fmap_app.
Qed.

Lemma rename_note_names old_name new_name s :
  names (Notebook.rename_note old_name new_name s).2 = names s
  ∨ ∃ i, Notebook.get_note (notes s) old_name = Some i
         ∧ (Str.lower old_name = Str.lower new_name
            ∨ Notebook.note_exists (notes s) new_name = false)
         ∧ names (Notebook.rename_note old_name new_name s).2
           = <[i := new_name]> (names s).
Proof.
  destruct s as [sd wd l m inp o t ed].
  unfold Notebook.rename_note. erewrite bind_ok by reflexivity.
  destruct (bool_decide _ && _) eqn:Hc; [by left|].
  unfold notes in *.
  destruct (Notebook.get_note l old_name) as [i|] eqn:Hg.
  - right. exists i. split; [done|]. split.
    { apply andb_false_iff in Hc as [Hc|Hc]; [left|by right].
      apply bool_decide_eq_false in Hc. by apply dec_stable. }
    erewrite bind_ok by reflexivity.
    erewrite bind_ok by reflexivity.
    erewrite bind_ok by reflexivity.
    erewrite bind_ok by reflexivity.
    match goal with |- names (?c ?s0).2 = _ =>
      assert (keeps names c) as Hk; [|rewrite (Hk s0)] end.
    { keeps_names. }
    unfold names, setattr, modify. norm_state.
    apply get_note_Some in Hg as (note & Hi & _).
    apply list_eq. intros j. rewrite !list_lookup_fmap.
    destruct (decide (i = j)) as [<-|Hne].
    + rewrite list_lookup_insert_eq
        by (rewrite length_fmap; by eapply lookup_lt_Some).
      rewrite !list_lookup_alter_eq, Hi. done.
    + rewrite list_lookup_insert_ne by done.
      rewrite !list_lookup_alter_ne by done. by rewrite list_lookup_fmap.
  - left.
    match goal with |- names (?c ?s0).2 = _ =>
      assert (keeps names c) as Hk; [|apply (Hk s0)] end.
    keeps_names.
Qed.

Lemma keeps_names_delete_note name : keeps names (Notebook.delete_note name).
Proof.
  unfold Notebook.delete_note. keeps_names.
Qed.
#[local] Hint Resolve keeps_names_delete_note : names_db.

Lemma create_note_unique name s :
  unique_names (notes s) → unique_names (notes (Notebook.create_note name s).2).
Proof.
  rewrite !unique_names_alt.
  change (Note.name <$> notes ?x) with (names x).
  destruct (create_note_names name s) as [->|[Hex ->]]; [done|].
  intros Hl. rewrite fmap_app. apply NoDup_app. split_and!; [done| |apply NoDup_singleton].
  intros x Hx ->%list_elem_of_singleton.
  apply list_elem_of_fmap in Hx as (n & Hn & Hin).
  apply list_elem_of_fmap in Hin as (note & -> & Hin).
  by eapply note_exists_false.
Qed.

Lemma rename_note_unique old_name new_name s :
  unique_names (notes s) →
  unique_names (notes (Notebook.rename_note old_name new_name s).2).
Proof.
  rewrite !unique_names_alt.
  change (Note.name <$> notes ?x) with (names x).
  destruct (rename_note_names old_name new_name s) as [->|(i & Hg & Hc & ->)]; [done|].
  intros Hl. rewrite list_fmap_insert.
  apply get_note_Some in Hg as (note & Hi & Hlow & _).
  destruct Hc as [Hc|Hc].
  - rewrite list_insert_id; [done|].
    unfold names. rewrite !list_lookup_fmap, Hi. cbn. congruence.
  - apply NoDup_insert_fresh; [done|].
    intros Hx. apply list_elem_of_fmap in Hx as (n & Hn & Hin).
    apply list_elem_of_fmap in Hin as (note' & -> & Hin).
    by eapply note_exists_false.
Qed.

Lemma load_loop_names files acc s l s' :
  Notebook.load_loop files acc s = (Ok l, s') →
  Note.name <$> l
  = (Note.name <$> acc) ++ (os_path.splitext_root <$> List.filter Str.endswith_txt files).
Proof.
  revert acc s. induction files as [|f files IH]; intros acc s.
  - cbn. intros [= <- _]. by rewrite app_nil_r.
  - cbn. destruct (Str.endswith_txt f); [|apply IH].
    erewrite bind_ok by reflexivity.
    unfold mbind at 1, M_bind at 1. rewrite open_read_run.
    destruct (read_file _ _ _) as [data|e]; [|done].
    erewrite bind_ok by apply Note_init_run.
    intros H%IH. rewrite H, fmap_app, <-app_assoc. done.
Qed.

Lemma load_notes_names s l s' :
  Notebook.load_notes s = (Ok l, s') →
  ∃ files, os.listdir (notes_folder s) s = (Ok files, s)
    ∧ Note.name <$> l = os_path.splitext_root <$> List.filter Str.endswith_txt files.
Proof.
  unfold Notebook.load_notes. erewrite bind_ok by reflexivity.
  unfold mbind, M_bind.
  destruct (os.listdir (notes_folder s) s) as [[files|e] s0] eqn:E; [|done].
  assert (s0 = s) as ->.
  { revert E. unfold os.listdir, mbind, M_bind, gets. cbn.
    destruct (resolve_dir _ _ _); unfold raise, mret, M_ret; congruence. }
  intros H%load_loop_names. by exists files.
Qed.

Lemma commands_lookup action handler :
  CommandProcessor.commands !! action = Some handler →
  (action, handler) ∈
    [ ("home", CommandProcessor.home); ("create", CommandProcessor.create);
      ("edit", CommandProcessor.edit); ("delete", CommandProcessor.delete);
      ("rename", CommandProcessor.rename); ("help", CommandProcessor.help);
      ("exit", CommandProcessor.exit); ("quit", CommandProcessor.exit);
      ("q", CommandProcessor.exit) ].
Proof. apply elem_of_list_to_map_2. Qed.

Lemma process_unique line s :
  unique_names (notes s) → unique_names (notes (CommandProcessor.process line s).2).
Proof.
  intros Hu. unfold CommandProcessor.process.
  destruct (Str.split line) as [|token args]; [done|].
  destruct (CommandProcessor.commands !! Str.lower token) as [handler|] eqn:E; [|done].
  apply commands_lookup in E. set_unfold.
  destruct E as [E|[E|[E|[E|[E|[E|[E|[E|[E|[]]]]]]]]]]; injection E as _ ->.
  - apply (keeps_names_unique Notebook.reset_screen); [|done].
    apply keeps_names_reset_screen.
  - destruct args; [done|]. by apply create_note_unique.
  - apply keeps_names_unique; [|done]. unfold CommandProcessor.edit.
    keeps_names.
  - apply keeps_names_unique; [|done]. unfold CommandProcessor.delete.
    keeps_names.
  - destruct args as [|? [|? ?]]; [done..|]. by apply rename_note_unique.
  - done.
  - done.
  - done.
  - done.
Qed.

(** C3, as the code has it.  [create_note], [rename_note], [delete_note]
    and every command line handled by [process] keep the names of the notes
    distinct under case-insensitive comparison, whatever their outcome.
    [load_notes] names the notes after the [.txt] entries of the folder, so
    after loading the names are distinct exactly when those entries, without
    their extension, are. *)
Theorem names_stay_distinct :
  (∀ s name, unique_names (notes s) →
     unique_names (notes (Notebook.create_note name s).2))
  ∧ (∀ s old_name new_name, unique_names (notes s) →
     unique_names (notes (Notebook.rename_note old_name new_name s).2))
  ∧ (∀ s name, unique_names (notes s) →
     unique_names (notes (Notebook.delete_note name s).2))
  ∧ (∀ s line, unique_names (notes s) →
     unique_names (notes (CommandProcessor.process line s).2))
  ∧ (∀ s l s', Notebook.load_notes s = (Ok l, s') →
     ∃ files, os.listdir (notes_folder s) s = (Ok files, s)
       ∧ (unique_names l ↔
          NoDup (Str.lower <$> (os_path.splitext_root
                                  <$> List.filter Str.endswith_txt files)))).
Proof.
  split_and!.
  - intros. by apply create_note_unique.
  - intros. by apply rename_note_unique.
  - intros. apply keeps_names_unique; [|done]. apply keeps_names_delete_note.
  - intros. by apply process_unique.
  - intros s l s' (files & Hf & Hn)%load_notes_names. exists files.
    split; [done|]. by rewrite unique_names_alt, Hn.
Qed.

(** ** Renaming a note whose file is there *)

Lemma os_rename_ok s src dst ks kd data :
  resolve (fs s) (cwd s) src = inr ks → resolve (fs s) (cwd s) dst = inr kd →
  fs s !! ks = Some (File data) → fs s !! kd ≠ Some Dir →
  os.rename src dst s = (Ok (), set_fs (<[kd := File data]> (base.delete ks (fs s))) s).
Proof.
  intros Hs Hd Hf Hk. unfold os.rename, locate, mbind, M_bind, gets. cbn.
  rewrite Hs. cbn. rewrite Hd. cbn. rewrite Hf.
  by destruct (fs s !! kd) as [[]|].
Qed.

Lemma path_exists_run s p k :
  resolve (fs s) (cwd s) p = inr k →
  os.path_exists p s = (Ok (bool_decide (is_Some (fs s !! k))), s).
Proof.
  intros Hk. unfold os.path_exists, mbind, M_bind, gets. cbn. by rewrite Hk.
Qed.

Lemma unique_names_lookup l i j x y :
  unique_names l → l !! i = Some x → l !! j = Some y →
  Str.lower (Note.name x) = Str.lower (Note.name y) → i = j.
Proof.
  intros Hu Hi Hj Hxy. eapply NoDup_lookup; [exact Hu|..].
  - rewrite list_lookup_fmap, Hi. done.
  - rewrite list_lookup_fmap, Hj. cbn. by rewrite Hxy.
Qed.

Lemma rename_note_ok s D old_name new_name i note :
  healthy s D → Forall (backed s D) (notes s) → unique_names (notes s) →
  valid_name new_name →
  Notebook.get_note (notes s) old_name = Some i → notes s !! i = Some note →
  (Str.lower old_name = Str.lower new_name
   ∨ Notebook.note_exists (notes s) new_name = false) →
  ∃ s',
    Notebook.rename_note old_name new_name s = (Ok (), s')
    ∧ notes s' = <[i := Note.mk new_name (Note.content note) (clock s)
                          (os_path.join (notes_folder s) (new_name +:+ ".txt"))]>
                   (notes s)
    ∧ fs s' = <[D ++ [new_name +:+ ".txt"] := File (Note.content note)]>
                (base.delete (D ++ [Note.name note +:+ ".txt"]) (fs s))
    ∧ script_dir s' = script_dir s ∧ cwd s' = cwd s
    ∧ stdout s' = stdout s ++ screen (notes s') ++ [Print "Note renamed successfully."]
    ∧ healthy s' D.
Proof.
  intros Hh Hb Hu Hv Hg Hi Hc.
  destruct s as [sd wd l m inp o t ed]. unfold notes in Hb, Hu, Hg, Hi, Hc.
  pose proof (proj1 (Forall_lookup _ _) Hb i note Hi) as (Hvn & Hpath & data & Hfile).
  unfold fs in Hfile. destruct note as [nn nc nt np].
  unfold Note.name in Hvn, Hfile. unfold Note.filepath, Note.name in Hpath.
  set (ka := D ++ [nn +:+ ".txt"]) in *.
  set (kb := D ++ [new_name +:+ ".txt"]).
  set (p := os_path.join (os_path.join sd "notes") (new_name +:+ ".txt")).
  set (note' := Note.mk new_name nc t p).
  set (m1 := <[kb := File nc]> (base.delete ka m)).
  set (s1 := State sd wd (<[i := note']> l) m1 inp o (S t) ed).
  assert (∀ d k', m !! k' = Some Dir
                  ↔ <[kb := File d]> (base.delete ka m) !! k' = Some Dir) as Hdirs.
  { intros d k'. rewrite <-dirs_insert_file.
    - by eapply dirs_delete_file.
    - rewrite <-(dirs_delete_file _ _ _ _ Hfile). apply Hh. }
  assert (healthy s1 D) as Hh1.
  { eapply healthy_mono; [..|exact Hh]; [done..|]. apply Hdirs. }
  assert (i < length l) as Hlt by by eapply lookup_lt_Some.
  assert (Forall (readable s1) (<[i := note']> l)) as Hr.
  { apply Forall_lookup. intros j x Hj.
    destruct (decide (i = j)) as [<-|Hne].
    - rewrite list_lookup_insert_eq in Hj by done.
      injection Hj as <-. apply (readable_by_name _ D); [done..|].
      exists nc. apply lookup_insert_eq.
    - rewrite list_lookup_insert_ne in Hj by done.
      destruct (proj1 (Forall_lookup _ _) Hb j x Hj) as (Hvx & _ & dx & Hx).
      apply (readable_by_name _ D); [done..|]. unfold s1, m1, fs in *.
      destruct (decide (kb = D ++ [Note.name x +:+ ".txt"])) as [<-|Hkb].
      + exists nc. apply lookup_insert_eq.
      + exists dx. rewrite lookup_insert_ne by done.
        rewrite lookup_delete_ne; [done|].
        unfold ka. intros Heq. apply Hne.
        apply app_inv_head in Heq. injection Heq as Heq%append_inj_r.
        apply (unique_names_lookup l i j _ x Hu Hi Hj). by rewrite <-Heq. }
  exists (say (screen (<[i := note']> l) ++ [Print "Note renamed successfully."]) s1).
  split; [|by split_and!].
  unfold Notebook.rename_note. erewrite bind_ok by reflexivity. norm_state.
  replace (bool_decide _ && _) with false.
  2:{ symmetry. apply andb_false_iff. destruct Hc as [Hc|Hc]; [left|by right].
      apply bool_decide_eq_false. by intros []. }
  rewrite Hg.
  erewrite bind_ok by (by apply this_run).
  erewrite bind_ok by (by apply setattr_run).
  erewrite bind_ok by reflexivity.
  norm_state. norm_note.
  erewrite bind_ok by (apply setattr_run; by apply list_lookup_insert_eq).
  norm_state. norm_note. rewrite list_insert_insert_eq.
  erewrite bind_ok by (apply this_run; by apply list_lookup_insert_eq).
  norm_note.
  erewrite bind_ok.
  2:{ eapply (os_rename_ok _ _ _ ka kb data); unfold fs, cwd.
      - rewrite Hpath. apply (resolve_backing _ _ nn Hh Hvn).
      - apply (resolve_backing _ _ _ Hh Hv).
      - done.
      - apply Hh. }
  norm_state.
  erewrite bind_ok.
  2:{ eapply (Note_save_ok _ _ _ kb); unfold notes, fs, cwd.
      - by apply list_lookup_insert_eq.
      - unfold Note.filepath. eapply resolve_mono; [|apply (resolve_backing _ _ _ Hh Hv)].
        intros k'. apply Hdirs.
      - by rewrite lookup_insert_eq. }
  norm_state. norm_note. rewrite insert_insert_eq, list_insert_insert_eq.
  erewrite bind_ok by apply (reset_screen_ok _ Hr).
  unfold print. rewrite emit_run, say_say. reflexivity.
Qed.

(** ** C4: what [rename_note] leaves on disk *)

Lemma get_note_named l n a :
  unique_names l → n ∈ l → Note.name n = a →
  ∃ i, Notebook.get_note l a = Some i ∧ l !! i = Some n.
Proof.
  intros Hu [j Hj]%list_elem_of_lookup Hn.
  destruct (Notebook.get_note l a) as [i|] eqn:Hg.
  - exists i. split; [done|].
    apply get_note_Some in Hg as (x & Hi & Hx & _).
    rewrite (unique_names_lookup l i j x n Hu Hi Hj); [done|]. by rewrite Hn.
  - apply get_note_None in Hg. exfalso.
    eapply (proj1 (note_exists_false _ _) Hg n); [|by rewrite Hn].
    by eapply list_elem_of_lookup_2.
Qed.


(** ** C5: when [rename_note] reports a conflict *)

Create HintDb stdout_db.
Ltac keeps_stdout := repeat first [ solve [auto with stdout_db] | keeps_step ].

Lemma keeps_stdout_locate p : keeps stdout (locate p).
Proof. unfold locate. keeps_stdout. Qed.
#[local] Hint Resolve keeps_stdout_locate : stdout_db.
Lemma keeps_stdout_open_write p data : keeps stdout (open_write p data).
Proof. unfold open_write. keeps_stdout. Qed.
Lemma keeps_stdout_now : keeps stdout now.
Proof. unfold now. keeps_stdout. Qed.
Lemma keeps_stdout_setattr i g : keeps stdout (setattr i g).
Proof. by intros s. Qed.
Lemma keeps_stdout_rename src dst : keeps stdout (os.rename src dst).
Proof. unfold os.rename. keeps_stdout. Qed.
#[local] Hint Resolve keeps_stdout_open_write keeps_stdout_now keeps_stdout_setattr
  keeps_stdout_rename : stdout_db.
Lemma keeps_stdout_save i : keeps stdout (Note_save i).
Proof. unfold Note_save, this. keeps_stdout. Qed.
#[local] Hint Resolve keeps_stdout_save : stdout_db.

(** What an operation that ends with [reset_screen] and one more line has
    written when it returns. *)
Lemma screen_then_print {A} (c : M A) (x : string) s s' :
  keeps stdout c →
  (c;; Notebook.reset_screen;; print x) s = (Ok (), s') →
  ∃ l, stdout s' = stdout s ++ screen l ++ [Print x].
Proof.
  intros Hc. unfold mbind, M_bind. specialize (Hc s).
  destruct (c s) as [[a|e] s1]; [|done]. cbn in Hc.
  destruct (reset_screen_cases s1) as [->|[e ->]]; [|done].
  unfold print. rewrite emit_run, say_say. intros [= <-].
  exists (notes s1). cbn. by rewrite Hc.
Qed.

Lemma screen_then_print2 {A B} (c1 : M A) (c2 : M B) (x : string) s s' :
  keeps stdout c1 → keeps stdout c2 →
  (c1;; c2;; Notebook.reset_screen;; print x) s = (Ok (), s') →
  ∃ l, stdout s' = stdout s ++ screen l ++ [Print x].
Proof.
  intros H1 H2. unfold mbind at 1, M_bind at 1. specialize (H1 s).
  destruct (c1 s) as [[a|e] s1]; [|done]. cbn in H1.
  intros (l & Hl)%screen_then_print; [|done]. exists l. by rewrite <-H1.
Qed.

Lemma screen_not_one l x y (o : list event) : o ++ screen l ++ [x] ≠ o ++ [y].
Proof. intros H%app_inv_head. discriminate H. Qed.


(** ** C8: the content column of the table *)

Lemma take_prefix n (s : string) :
  n ≤ String.length s →
  ∃ rest, s = Str.take n s +:+ rest ∧ String.length (Str.take n s) = n.
Proof.
  revert s. induction n as [|n IH]; intros s Hn.
  - exists s. by destruct s.
  - destruct s as [|c s]; cbn in Hn; [lia|].
    destruct (IH s) as (rest & Hs & Hl); [lia|].
    exists rest. cbn. rewrite append_cons, <-Hs, Hl. done.
Qed.

(** C8. When the files of the notes can be read, [display_notes] prints one
    table with one row per note, in order and numbered from 1; the content
    cell of a note longer than 50 characters is its first 50 characters
    followed by three dots, and the content itself otherwise. *)
Theorem display_notes_preview (s : state) :
  Forall (readable s) (notes s) →
  ∃ table,
    Notebook.display_notes s = (Ok (), say [Table table] s)
    ∧ length table = length (notes s)
    ∧ ∀ i note, notes s !! i = Some note →
        ∃ r, table !! i = Some r
          ∧ row_index r = S i
          ∧ (50 < String.length (Note.content note) →
             ∃ first rest,
               Note.content note = first +:+ rest
               ∧ String.length first = 50
               ∧ row_content r = first +:+ "...")
          ∧ (String.length (Note.content note) ≤ 50 →
             row_content r = Note.content note).
Proof.
  intros Hr. exists (table_of (notes s)). split_and!.
  - by apply display_notes_ok.
  - unfold table_of. by rewrite length_imap.
  - intros i note Hi. exists (row_of (S i) note). split_and!.
    + unfold table_of. by rewrite list_lookup_imap, Hi.
    + done.
    + intros Hlen. destruct (take_prefix 50 (Note.content note)) as (rest & Hc & Hl);
        [lia|].
      exists (Str.take 50 (Note.content note)), rest. split_and!; [done..|].
      cbn [row_content row_of]. unfold Notebook.formatted_content.
      by rewrite bool_decide_eq_true_2.
    + intros Hlen. cbn [row_content row_of]. unfold Notebook.formatted_content.
      rewrite bool_decide_eq_false_2; [done|lia].
Qed.

(** ** C7 and C10: [delete_note] *)

Lemma delete_note_declined s name i answer rest :
  Notebook.get_note (notes s) name = Some i →
  stdin s = answer :: rest → Str.lower answer ≠ "yes" →
  Notebook.delete_note name s
  = (Ok false, say [Print "Deletion cancelled."]
                 (set_stdin rest (say [Prompt (delete_prompt name)] s))).
Proof.
  intros Hg Hin Hno. unfold Notebook.delete_note.
  erewrite bind_ok by reflexivity. rewrite Hg.
  erewrite bind_ok by by apply input_ok.
  rewrite decide_False by done.
  unfold print. by erewrite bind_ok by apply emit_run.
Qed.

Lemma delete_note_confirmed s name i answer rest :
  Notebook.get_note (notes s) name = Some i →
  stdin s = answer :: rest → Str.lower answer = "yes" →
  Notebook.delete_note name s
  = (Raise (AttributeError "'Note' object has no attribute 'delete'"),
     set_stdin rest (say [Prompt (delete_prompt name)] s)).
Proof.
  intros Hg Hin Hyes. unfold Notebook.delete_note.
  erewrite bind_ok by reflexivity. rewrite Hg.
  erewrite bind_ok by by apply input_ok.
  by rewrite decide_True by done.
Qed.

Lemma delete_note_absent s name :
  Notebook.get_note (notes s) name = None → Forall (readable s) (notes s) →
  Notebook.delete_note name s = (Ok false, say (screen (notes s)) s).
Proof.
  intros Hg Hr. unfold Notebook.delete_note.
  erewrite bind_ok by reflexivity. rewrite Hg.
  by erewrite bind_ok by by apply reset_screen_ok.
Qed.

(** C10. When the note exists and the answer to the confirmation is not
    yes, [delete_note] prints that the deletion is cancelled and returns
    false, and the [delete] command, which prints its second message on
    false, then adds that the note was not found. *)
Theorem delete_declined_says_not_found (s : state) (name answer : string)
    (args rest : list string) (i : nat) :
  Notebook.get_note (notes s) name = Some i →
  stdin s = answer :: rest →
  Str.lower answer ≠ "yes" →
  ∃ s',
    Notebook.delete_note name s = (Ok false, s')
    ∧ notes s' = notes s ∧ fs s' = fs s
    ∧ stdout s' = stdout s ++ [Prompt (delete_prompt name); Print "Deletion cancelled."]
    ∧ CommandProcessor.delete (name :: args) s
      = (Ok (), say [Print "Note not found."] s').
Proof.
  intros Hg Hin Hno. eexists. split; [by eapply delete_note_declined|].
  split_and!; [done..| |].
  - cbn [stdout say set_stdout set_stdin]. by rewrite <-app_assoc.
  - unfold CommandProcessor.delete.
    by erewrite bind_ok by by eapply delete_note_declined.
Qed.

(** ** C9: which failures are reported *)

Lemma process_user_error s line msg :
  user_error (notes s) (Str.split line) msg →
  CommandProcessor.process line s = (Ok (), say [Print msg] s).
Proof.
  unfold CommandProcessor.process. intros H.
  destruct H as [token args H|token H|token arg args H Hex|token H
                |token arg args H Hg|token H|token args H Hlen
                |token old_name arg args H Hne Hex]; rewrite H; try done.
  - change (CommandProcessor.commands !! "create") with (Some CommandProcessor.create).
    unfold CommandProcessor.create, Notebook.create_note.
    erewrite bind_ok by reflexivity. by rewrite Hex.
  - change (CommandProcessor.commands !! "edit") with (Some CommandProcessor.edit).
    unfold CommandProcessor.edit.
    erewrite bind_ok by reflexivity. by rewrite Hg.
  - change (CommandProcessor.commands !! "rename") with (Some CommandProcessor.rename).
    by destruct args as [|? [|? ?]]; [..|cbn in Hlen; lia].
  - change (CommandProcessor.commands !! "rename") with (Some CommandProcessor.rename).
    unfold CommandProcessor.rename, Notebook.rename_note.
    erewrite bind_ok by reflexivity.
    by rewrite Hex, bool_decide_eq_true_2.
Qed.

Lemma resolve_raises m wd p e : resolve m wd p = inl e → is_Exception e = true.
Proof.
  unfold resolve. destruct (walk _ _ _ _) as [e0|d] eqn:E; [|done].
  intros [= <-]. revert E. generalize (start wd p).
  induction (removelast (Str.fields p)) as [|c cs IH]; intros d; [done|].
  cbn. destruct (enter m p d c) as [e1|d'] eqn:E1; [|apply IH].
  intros [= <-]. revert E1. unfold enter. repeat case_decide; try done.
  destruct (m !! (d ++ [c])) as [[]|]; by intros [= <-].
Qed.

Lemma open_read_raises p s e s' :
  open_read p s = (Raise e, s') → is_Exception e = true.
Proof.
  rewrite open_read_run. unfold read_file.
  destruct (resolve _ _ _) as [e0|k] eqn:E.
  - intros [= <- _]. by eapply resolve_raises.
  - destruct (fs s !! _) as [[]|]; [done|by intros [= <- _]..].
Qed.

Lemma open_write_raises p data s e s' :
  open_write p data s = (Raise e, s') → is_Exception e = true.
Proof.
  unfold open_write, locate, mbind, M_bind, gets.
  destruct (resolve _ _ _) as [e0|k] eqn:E.
  - intros [= <- _]. by eapply resolve_raises.
  - cbn. destruct (fs s !! _) as [[]|]; [done|by intros [= <- _]|done].
Qed.

Lemma run_open_raises p s e s' :
  subprocess.run_open p s = (Raise e, s') →
  ∃ rest, editor s = LaunchFails e :: rest.
Proof.
  unfold subprocess.run_open. erewrite bind_ok by reflexivity.
  destruct (editor s) as [|[e0|[data|]] rest]; try done.
  - erewrite bind_ok by reflexivity. intros [= <- _]. by exists rest.
  - erewrite bind_ok by reflexivity. unfold try_except.
    destruct (open_write p data _) as [[[]|e1] s1] eqn:E; [done|].
    by rewrite (open_write_raises _ _ _ _ _ E).
Qed.

(** Once the file of the note exists, [Note.edit] returns whatever happens
    inside its [try]. *)
Lemma Note_edit_returns s i note :
  notes s !! i = Some note →
  os.path_exists (Note.filepath note) s = (Ok true, s) →
  (∀ e rest, editor s = LaunchFails e :: rest → is_Exception e = true) →
  ∃ s', Note_edit i s = (Ok (), s').
Proof.
  intros Hi Hex Hed. unfold Note_edit.
  erewrite bind_ok by by apply this_run.
  erewrite bind_ok by exact Hex.
  erewrite bind_ok by reflexivity.
  unfold try_except.
  erewrite bind_ok by by apply this_run.
  unfold mbind at 1, M_bind at 1.
  destruct (subprocess.run_open _ s) as [[[]|e] s1] eqn:E1.
  2:{ apply run_open_raises in E1 as [rest E1]. rewrite (Hed _ _ E1).
      rewrite emit_run. eauto. }
  unfold print. erewrite bind_ok by apply emit_run.
  unfold mbind at 1, M_bind at 1.
  destruct (input _ _) as [[line|e] s2] eqn:E2.
  2:{ assert (e = EOFError) as ->.
      { revert E2. unfold input. erewrite bind_ok by apply emit_run.
        erewrite bind_ok by reflexivity.
        destruct (stdin _); [by intros [= <-]|].
        by erewrite bind_ok by reflexivity. }
      cbn. rewrite emit_run. eauto. }
  unfold Note_load_content. erewrite bind_ok by reflexivity.
  unfold mbind at 1, M_bind at 1.
  destruct (open_read _ s2) as [[data|e] s3] eqn:E3.
  - unfold setattr, modify. eauto.
  - rewrite (open_read_raises _ _ _ _ E3), emit_run. eauto.
Qed.


(** ** Worked scenarios *)

Lemma disk_flat files c : disk files !! (["app"; "notes"] ++ [c]) ≠ Some Dir.
Proof.
  unfold disk. intros H%elem_of_list_to_map_2.
  apply elem_of_app in H as [H|H].
  - set_unfold. by destruct H as [H|[H|[H|[H|[]]]]].
  - by apply list_elem_of_fmap in H as (f & [= _] & _).
Qed.

Lemma one_note_loaded input : loaded ["app"] [("a.txt", "x")] input = one_note input.
Proof. destruct input; vm_compute; reflexivity. Qed.

Lemma one_note_healthy input : healthy (one_note input) ["app"; "notes"].
Proof. split; [vm_compute; reflexivity..|apply disk_flat]. Qed.

Lemma one_note_backed input :
  Forall (backed (one_note input) ["app"; "notes"]) (notes (one_note input)).
Proof.
  apply Forall_singleton. split_and!.
  - by intros [?|[]].
  - vm_compute. reflexivity.
  - exists "x". vm_compute. reflexivity.
Qed.

Lemma one_note_unique input : unique_names (notes (one_note input)).
Proof. apply NoDup_singleton. Qed.

Lemma valid_name_example : valid_name "todo" ∧ valid_name "b" ∧ valid_name "A".
Proof. unfold valid_name. cbn. intuition discriminate. Qed.


Lemma create_note_conflict_witness :
  Notebook.create_note "A" (one_note ["ignored"])
    = (Ok (), say [Print Notebook.exists_msg] (one_note ["ignored"]))
  ∧ notes (Notebook.create_note "A" (one_note ["ignored"])).2
    = notes (one_note ["ignored"])
  ∧ fs (Notebook.create_note "A" (one_note ["ignored"])).2
    = fs (one_note ["ignored"]).
Proof.
  apply (create_note_conflict (one_note ["ignored"]) "A").
  vm_compute. reflexivity.
Defined.



Lemma note_exists_case_insensitive_witness :
  Notebook.note_exists [Note.mk "Foo" "" 0 "/app/notes/Foo.txt"] "foo" = true
  ∧ Notebook.note_exists [Note.mk "Foo" "" 0 "/app/notes/Foo.txt"] "bar" = false.
Proof.
  split.
  - apply (proj1 (note_exists_case_insensitive
                    [Note.mk "Foo" "" 0 "/app/notes/Foo.txt"] "foo")
             (Note.mk "Foo" "" 0 "/app/notes/Foo.txt")).
    + apply list_elem_of_here.
    + cbn. split_and!; [right; right; split; reflexivity|by left..|exact I].
  - apply (proj2 (proj2 (note_exists_case_insensitive
                           [Note.mk "Foo" "" 0 "/app/notes/Foo.txt"] "bar"))).
    intros note ->%list_elem_of_singleton. vm_compute. discriminate.
Defined.

Lemma names_stay_distinct_witness :
  unique_names (notes (Notebook.create_note "todo" (one_note ["buy milk"])).2)
  ∧ unique_names (notes (CommandProcessor.process "rename a b" (one_note [])).2)
  ∧ ∃ files,
      os.listdir (notes_folder (boot ["app"] [("a.txt", "x")] []))
        (boot ["app"] [("a.txt", "x")] [])
      = (Ok files, boot ["app"] [("a.txt", "x")] [])
      ∧ (unique_names [note_a] ↔
         NoDup (Str.lower <$> (os_path.splitext_root
                                 <$> List.filter Str.endswith_txt files))).
Proof.
  split_and!.
  - apply (proj1 names_stay_distinct), one_note_unique.
  - apply (proj1 (proj2 (proj2 (proj2 names_stay_distinct)))), one_note_unique.
  - apply (proj2 (proj2 (proj2 (proj2 names_stay_distinct)))
             (boot ["app"] [("a.txt", "x")] []) [note_a]
             (Notebook.load_notes (boot ["app"] [("a.txt", "x")] [])).2).
    vm_compute. reflexivity.
Defined.


Lemma two_notes_readable : Forall (readable two_notes) (notes two_notes).
Proof.
  constructor; [|constructor; [|constructor]].
  - exists sixty. vm_compute. reflexivity.
  - exists forty. vm_compute. reflexivity.
Qed.

Lemma display_notes_preview_witness :
  ∃ table,
    Notebook.display_notes two_notes = (Ok (), say [Table table] two_notes)
    ∧ length table = length (notes two_notes)
    ∧ ∀ i note, notes two_notes !! i = Some note →
        ∃ r, table !! i = Some r
          ∧ row_index r = S i
          ∧ (50 < String.length (Note.content note) →
             ∃ first rest,
               Note.content note = first +:+ rest
               ∧ String.length first = 50
               ∧ row_content r = first +:+ "...")
          ∧ (String.length (Note.content note) ≤ 50 →
             row_content r = Note.content note).
Proof. apply (display_notes_preview two_notes), two_notes_readable. Defined.

(** The table of the two notes: the first cut after 50 characters, the
    second whole. *)
Example display_notes_two :
  (Notebook.display_notes two_notes).1 = Ok ()
  ∧ stdout (Notebook.display_notes two_notes).2
    = [Table [Row 1 "long" 0 "12345678901234567890123456789012345678901234567890...";
              Row 2 "short" 1 forty]].
Proof. split; vm_compute; reflexivity. Qed.

Lemma delete_declined_says_not_found_witness :
  ∃ s',
    Notebook.delete_note "a" (one_note ["no"]) = (Ok false, s')
    ∧ notes s' = notes (one_note ["no"]) ∧ fs s' = fs (one_note ["no"])
    ∧ stdout s' = stdout (one_note ["no"])
                  ++ [Prompt (delete_prompt "a"); Print "Deletion cancelled."]
    ∧ CommandProcessor.delete ["a"] (one_note ["no"])
      = (Ok (), say [Print "Note not found."] s').
Proof.
  apply (delete_declined_says_not_found (one_note ["no"]) "a" "no" [] [] 0).
  - vm_compute. reflexivity.
  - reflexivity.
  - vm_compute. discriminate.
Defined.

(** C7, at the failing input: the note [a] exists and the answer is yes.
    [delete_note] raises instead of returning true; the note and its file
    stay. *)
Theorem delete_confirmed_raises :
  (Notebook.delete_note "a" (one_note ["yes"])).1
    = Raise (AttributeError "'Note' object has no attribute 'delete'")
  ∧ notes (Notebook.delete_note "a" (one_note ["yes"])).2 = [note_a]
  ∧ fs (Notebook.delete_note "a" (one_note ["yes"])).2 !! ["app"; "notes"; "a.txt"]
    = Some (File "x").
Proof.
  rewrite (delete_note_confirmed (one_note ["yes"]) "a" 0 "yes" [])
    by (vm_compute; reflexivity).
  split_and!; vm_compute; reflexivity.
Qed.

(** C3 fails after loading: a folder that holds [Foo.txt] and [foo.txt]
    loads into two notes of the same name up to case. *)
Lemma names_clash_after_load :
  (Notebook.init (boot ["app"] [("Foo.txt", "one"); ("foo.txt", "two")] [])).1 = Ok ()
  ∧ ¬ unique_names (notes (loaded ["app"] [("Foo.txt", "one"); ("foo.txt", "two")] [])).
Proof.
  split; [vm_compute; reflexivity|].
  assert (notes (loaded ["app"] [("Foo.txt", "one"); ("foo.txt", "two")] [])
          = [Note.mk "foo" "two" 0 "/app/notes/foo.txt";
             Note.mk "Foo" "one" 1 "/app/notes/Foo.txt"]) as ->
    by (vm_compute; reflexivity).
  unfold unique_names. intros H. apply NoDup_cons in H as [H _].
  apply H. vm_compute. apply list_elem_of_here.
Qed.


(** * Further properties of the code *)

(** ** The loop of [main] *)

Lemma split_blank line : blank line → Str.split line = [].
Proof.
  unfold Str.split. induction line as [|c line IH]; [done|]. intros H. cbn.
  rewrite (H c) by (by left). cbn. apply IH. intros c' Hc'. apply H. by right.
Qed.

(** X1. A line whose first word is [exit], [quit] or [q], in any case, ends
    the loop: [SystemExit] is raised right after the line is read, whatever
    follows the word, and no further line is read. *)
Theorem exit_stops_the_loop (n : nat) (s : state) (line token : string)
    (args rest : list string) :
  stdin s = line :: rest →
  Str.split line = token :: args →
  Str.lower token ∈ ["exit"; "quit"; "q"] →
  loop (S n) s = (Raise SystemExit, set_stdin rest (say [Prompt "Notebook> "] s)).
Proof.
  intros Hin Hsp Htok. cbn [loop].
  erewrite bind_ok by by apply input_ok.
  unfold CommandProcessor.process. rewrite Hsp.
  assert (CommandProcessor.commands !! Str.lower token = Some CommandProcessor.exit) as ->.
  { set_unfold. destruct Htok as [->|[->|[->|[]]]]; reflexivity. }
  reflexivity.
Qed.

Lemma exit_stops_the_loop_witness :
  loop 3 (one_note ["QUIT now"; "create x"])
  = (Raise SystemExit,
     set_stdin ["create x"] (say [Prompt "Notebook> "] (one_note ["QUIT now"; "create x"]))).
Proof.
  apply (exit_stops_the_loop 2 (one_note ["QUIT now"; "create x"])
           "QUIT now" "QUIT" ["now"] ["create x"]).
  - reflexivity.
  - vm_compute. reflexivity.
  - right. left.
Defined.

(** X2. The loop writes its prompt before every line and skips the lines
    that hold white space only; when the input ends, the [EOFError] of
    [input] leaves the loop. *)
Theorem blank_lines_then_end_of_input (n : nat) (s : state) :
  Forall blank (stdin s) → length (stdin s) < n →
  loop n s
  = (Raise EOFError,
     set_stdin [] (say (replicate (S (length (stdin s))) (Prompt "Notebook> ")) s)).
Proof.
  destruct s as [sd wd l m inp o t ed]. norm_state.
  revert n o. induction inp as [|line inp IH]; intros n o Hb Hn.
  - destruct n as [|n]; [cbn in Hn; lia|]. cbn [loop].
    erewrite bind_raise by (by apply input_eof). reflexivity.
  - destruct n as [|n]; [cbn in Hn; lia|]. cbn [loop].
    apply Forall_cons in Hb as [Hl Hb].
    erewrite bind_ok by (by apply input_ok).
    erewrite bind_ok.
    2:{ unfold CommandProcessor.process. rewrite (split_blank _ Hl). reflexivity. }
    norm_state. rewrite IH; [|done|cbn in Hn; lia].
    norm_state. cbn [replicate length]. by rewrite <-app_assoc.
Qed.

Lemma blank_lines_then_end_of_input_witness :
  loop 5 (one_note [""; "   "])
  = (Raise EOFError,
     set_stdin [] (say (replicate 3 (Prompt "Notebook> ")) (one_note [""; "   "]))).
Proof.
  apply (blank_lines_then_end_of_input 5 (one_note [""; "   "])).
  - constructor; [|constructor; [|constructor]].
    + intros c [].
    + intros c [->|[->|[->|[]]]]; reflexivity.
  - cbn. lia.
Defined.

(** ** [display_notes] when a file cannot be read *)

Lemma display_loop_unreadable i l1 note l2 table s e :
  Forall (readable s) l1 →
  read_file (fs s) (cwd s) ("notes/" +:+ Note.name note +:+ ".txt") = Raise e →
  Notebook.display_loop i (l1 ++ note :: l2) table s = (Raise e, s).
Proof.
  intros H He. revert i table. induction H as [|x l1 [data Hd] _ IH]; intros i table.
  - cbn. erewrite bind_raise; [done|]. by rewrite open_read_run, He.
  - cbn. erewrite bind_ok by (rewrite open_read_run, Hd; reflexivity). apply IH.
Qed.

(** X3. [display_notes] opens the file [notes/<name>.txt] of every note in
    turn before it prints: when the file of some note cannot be read, the
    error of the first such note is raised and no table is printed. *)
Theorem display_notes_first_unreadable (s : state) (l1 l2 : list Note.t)
    (note : Note.t) (e : exn) :
  notes s = l1 ++ note :: l2 →
  Forall (readable s) l1 →
  read_file (fs s) (cwd s) ("notes/" +:+ Note.name note +:+ ".txt") = Raise e →
  Notebook.display_notes s = (Raise e, s).
Proof.
  intros Hn H He. unfold Notebook.display_notes.
  erewrite bind_ok by reflexivity. rewrite Hn.
  by erewrite bind_raise by by apply display_loop_unreadable.
Qed.

Lemma display_notes_first_unreadable_witness :
  Notebook.display_notes (orphan [])
  = (Raise (FileNotFoundError "notes/a.txt"), orphan []).
Proof.
  apply (display_notes_first_unreadable (orphan []) [] [] note_a).
  - reflexivity.
  - constructor.
  - vm_compute. reflexivity.
Defined.

(** ** Looking a note up *)

(** X4. [get_note] and [note_exists] agree: [get_note(name)] finds nothing
    exactly when [note_exists(name)] is false; and what it finds is the
    first note of the list whose name equals [name] up to case. *)
Theorem get_note_finds_first (l : list Note.t) (name : string) :
  (Notebook.get_note l name = None ↔ Notebook.note_exists l name = false)
  ∧ (∀ i, Notebook.get_note l name = Some i ↔
       ∃ note, l !! i = Some note
         ∧ Str.lower (Note.name note) = Str.lower name
         ∧ ∀ j x, l !! j = Some x → j < i →
             Str.lower (Note.name x) ≠ Str.lower name).
Proof.
  split; [apply get_note_None|]. intros i. apply get_note_Some.
Qed.

(** ** Commands on a note that is not there *)

(** X5. Renaming a note that is not in the notebook changes neither the
    notes nor the files: when the new name is taken the conflict message is
    printed, and otherwise the screen is drawn again, followed by
    [Note not found.]. *)
Theorem rename_note_not_found (s : state) (old_name new_name : string) :
  Notebook.get_note (notes s) old_name = None →
  Forall (readable s) (notes s) →
  Notebook.rename_note old_name new_name s
  = (Ok (), say (if Notebook.note_exists (notes s) new_name
                 then [Print Notebook.exists_msg]
                 else screen (notes s) ++ [Print "Note not found."]) s).
Proof.
  intros Hg Hr. unfold Notebook.rename_note. erewrite bind_ok by reflexivity.
  destruct (Notebook.note_exists (notes s) new_name) eqn:Hex.
  - rewrite bool_decide_eq_true_2; [done|]. intros Hl.
    apply get_note_None in Hg.
    apply note_exists_true in Hex as (x & Hx & Hxl).
    eapply note_exists_false; [exact Hg|exact Hx|]. congruence.
  - rewrite andb_false_r, Hg. erewrite bind_ok by by apply reset_screen_ok.
    unfold print. by rewrite emit_run, say_say.
Qed.

Lemma rename_note_not_found_witness :
  Notebook.rename_note "b" "c" (one_note [])
  = (Ok (), say (screen [note_a] ++ [Print "Note not found."]) (one_note []))
  ∧ Notebook.rename_note "b" "A" (one_note [])
    = (Ok (), say [Print Notebook.exists_msg] (one_note [])).
Proof.
  split.
  - apply (rename_note_not_found (one_note []) "b" "c"); [vm_compute; reflexivity|].
    eapply Forall_impl; [apply one_note_backed|].
    intros x. apply backed_readable, one_note_healthy.
  - apply (rename_note_not_found (one_note []) "b" "A"); [vm_compute; reflexivity|].
    eapply Forall_impl; [apply one_note_backed|].
    intros x. apply backed_readable, one_note_healthy.
Defined.

(** X6. The [delete] command on a name that no note has draws the screen
    again and then prints [Note not found.]; notes and files stay as they
    are, and nothing is read from the input. *)
Theorem delete_absent_note (s : state) (name : string) (args : list string) :
  Notebook.get_note (notes s) name = None →
  Forall (readable s) (notes s) →
  CommandProcessor.delete (name :: args) s
  = (Ok (), say (screen (notes s) ++ [Print "Note not found."]) s).
Proof.
  intros Hg Hr. unfold CommandProcessor.delete.
  erewrite bind_ok by by apply delete_note_absent.
  unfold print. by rewrite emit_run, say_say.
Qed.

Lemma delete_absent_note_witness :
  CommandProcessor.delete ["b"; "c"] (one_note ["yes"])
  = (Ok (), say (screen [note_a] ++ [Print "Note not found."]) (one_note ["yes"])).
Proof.
  apply (delete_absent_note (one_note ["yes"]) "b" ["c"]); [vm_compute; reflexivity|].
  eapply Forall_impl; [apply one_note_backed|].
  intros x. apply backed_readable, one_note_healthy.
Defined.

(** ** Names of several words *)

Lemma replace_char_app a b (x y : string) :
  Str.replace_char a b (x +:+ y) = Str.replace_char a b x +:+ Str.replace_char a b y.
Proof.
  induction x as [|c x IH]; [done|]. rewrite append_cons. cbn.
  by rewrite IH, append_cons.
Qed.

Lemma replace_char_join a b sep (l : list string) :
  Str.replace_char a b (Str.join sep l)
  = Str.join (Str.replace_char a b sep) (Str.replace_char a b <$> l).
Proof.
  induction l as [|x l IH]; [done|].
  destruct l as [|y l]; [done|].
  change (Str.join sep (x :: y :: l)) with (x +:+ sep +:+ Str.join sep (y :: l)).
  rewrite !replace_char_app, IH. done.
Qed.

(** X7. A note made by [create] from several words is named by the words
    joined with underscores, and the table shows the words separated by
    spaces (an underscore typed inside a word is shown as a space too). *)
Theorem words_shown_with_spaces (s : state) (i : nat) (note : Note.t)
    (args : list string) :
  Forall (readable s) (notes s) →
  notes s !! i = Some note →
  Note.name note = Str.join "_" args →
  ∃ table r,
    Notebook.display_notes s = (Ok (), say [Table table] s)
    ∧ table !! i = Some r
    ∧ row_name r = Str.join " " (Str.replace_char "_" " " <$> args).
Proof.
  intros Hr Hi Hn. exists (table_of (notes s)), (row_of (S i) note).
  split_and!.
  - by apply display_notes_ok.
  - unfold table_of. by rewrite list_lookup_imap, Hi.
  - unfold row_of. cbn [row_name]. rewrite Hn. apply replace_char_join.
Qed.

Lemma words_shown_with_spaces_witness :
  ∃ table r,
    Notebook.display_notes shopping = (Ok (), say [Table table] shopping)
    ∧ table !! 0 = Some r
    ∧ row_name r = Str.join " " (Str.replace_char "_" " " <$> ["shopping"; "list"]).
Proof.
  apply (words_shown_with_spaces shopping 0 shopping_list ["shopping"; "list"]).
  - constructor; [|constructor]. exists "eggs". vm_compute. reflexivity.
  - reflexivity.
  - reflexivity.
Defined.

(** ** [Note.save] *)

Lemma open_write_inv p data s s1 :
  open_write p data s = (Ok (), s1) →
  ∃ k, resolve (fs s) (cwd s) p = inr k ∧ fs s !! k ≠ Some Dir.
Proof.
  unfold open_write, locate, mbind, M_bind, gets.
  destruct (resolve _ _ _) as [e0|k] eqn:E; [done|].
  cbn. destruct (fs s !! k) as [[]|] eqn:El; intros H; try done.
  - exists k. by rewrite El.
  - exists k. by rewrite El.
Qed.

Lemma open_write_raise_state p data s e s' :
  open_write p data s = (Raise e, s') → s' = s.
Proof.
  unfold open_write, locate, mbind, M_bind, gets.
  destruct (resolve _ _ _) as [e0|k] eqn:E; [by intros [= _ <-]|].
  cbn. destruct (fs s !! k) as [[]|]; try done. by intros [= _ <-].
Qed.





(** ** [create_note] and the screen *)



(** ** [rename_note] *)

Lemma os_rename_missing s src dst ks kd :
  resolve (fs s) (cwd s) src = inr ks → resolve (fs s) (cwd s) dst = inr kd →
  fs s !! ks = None →
  os.rename src dst s = (Raise (FileNotFoundError src), s).
Proof.
  intros Hs Hd Hf. unfold os.rename, locate, mbind, M_bind, gets. cbn.
  rewrite Hs. cbn. rewrite Hd. cbn. by rewrite Hf.
Qed.

(** X11. [rename_note] changes the note before it renames the file: when
    the file of the note is not there, [os.rename] raises
    [FileNotFoundError], and the note is left under its new name and new
    path in memory, with no file at either path. *)
Theorem rename_note_file_missing (s : state) (D : list string)
    (old_name new_name : string) (i : nat) (note : Note.t) :
  healthy s D →
  Notebook.get_note (notes s) old_name = Some i → notes s !! i = Some note →
  (Str.lower old_name = Str.lower new_name
   ∨ Notebook.note_exists (notes s) new_name = false) →
  valid_name (Note.name note) → valid_name new_name →
  Note.filepath note = os_path.join (notes_folder s) (Note.name note +:+ ".txt") →
  fs s !! (D ++ [Note.name note +:+ ".txt"]) = None →
  Notebook.rename_note old_name new_name s
  = (Raise (FileNotFoundError (Note.filepath note)),
     set_notes (<[i := Note.mk new_name (Note.content note) (Note.edited_time note)
                          (os_path.join (notes_folder s) (new_name +:+ ".txt"))]>
                  (notes s)) s).
Proof.
  intros Hh Hg Hi Hc Hvn Hv Hpath Hfile.
  destruct s as [sd wd l m inp o t ed]. unfold notes in Hg, Hi, Hc.
  unfold fs in Hfile. destruct note as [nn nc nt np].
  unfold Note.name in Hvn, Hfile. unfold Note.filepath, Note.name in Hpath.
  assert (i < length l) as Hlt by by eapply lookup_lt_Some.
  unfold Notebook.rename_note. erewrite bind_ok by reflexivity. norm_state.
  norm_note.
  replace (bool_decide _ && _) with false.
  2:{ symmetry. apply andb_false_iff. destruct Hc as [Hc|Hc]; [left|by right].
      apply bool_decide_eq_false. by intros []. }
  rewrite Hg.
  erewrite bind_ok by (by apply this_run).
  erewrite bind_ok by (by apply setattr_run).
  erewrite bind_ok by reflexivity.
  norm_state. norm_note.
  erewrite bind_ok by (apply setattr_run; by apply list_lookup_insert_eq).
  norm_state. norm_note. rewrite list_insert_insert_eq.
  erewrite bind_ok by (apply this_run; by apply list_lookup_insert_eq).
  norm_note.
  erewrite bind_raise; [reflexivity|].
  eapply (os_rename_missing _ _ _ (D ++ [nn +:+ ".txt"]) (D ++ [new_name +:+ ".txt"]));
    unfold fs, cwd.
  - rewrite Hpath. apply (resolve_backing _ _ nn Hh Hvn).
  - apply (resolve_backing _ _ _ Hh Hv).
  - done.
Qed.

Lemma orphan_healthy input : healthy (orphan input) ["app"; "notes"].
Proof. split; [vm_compute; reflexivity..|apply disk_flat]. Qed.

Lemma rename_note_file_missing_witness :
  Notebook.rename_note "a" "b" (orphan [])
  = (Raise (FileNotFoundError (Note.filepath note_a)),
     set_notes (<[0 := Note.mk "b" (Note.content note_a) (Note.edited_time note_a)
                          (os_path.join (notes_folder (orphan [])) ("b" +:+ ".txt"))]>
                  (notes (orphan []))) (orphan [])).
Proof.
  apply (rename_note_file_missing (orphan []) ["app"; "notes"] "a" "b" 0 note_a).
  - apply orphan_healthy.
  - vm_compute. reflexivity.
  - reflexivity.
  - right. vm_compute. reflexivity.
  - intros [H|[]]. discriminate H.
  - apply valid_name_example.
  - vm_compute. reflexivity.
  - vm_compute. reflexivity.
Defined.



(** ** [load_notes] and the start of [main] *)

Lemma strip_txt_app f stem : Str.strip_txt f = Some stem → f = stem +:+ ".txt".
Proof.
  revert stem. induction f as [|c f IH]; intros stem; [done|].
  cbn [Str.strip_txt]. case_decide as E; [by intros [= <-]|].
  destruct (Str.strip_txt f) as [stem'|]; [|done].
  intros [= <-]. by rewrite append_cons, <-(IH stem').
Qed.

Lemma endswith_txt_stem f :
  Str.endswith_txt f = true → ∃ stem, Str.strip_txt f = Some stem.
Proof. unfold Str.endswith_txt. intros [stem H]%bool_decide_eq_true. by exists stem. Qed.

Lemma elem_of_entries m D f :
  f ∈ entries m D ↔ ∃ node, m !! (D ++ [f]) = Some node.
Proof.
  unfold entries. rewrite list_elem_of_omap. split.
  - intros ([k node] & Hin & H). apply elem_of_map_to_list in Hin.
    cbn [fst] in H. case_decide as E; [|done]. destruct E as [Hk <-].
    injection H as <-. exists node. by rewrite <-app_removelast_last.
  - intros [node H]. exists (D ++ [f], node). split.
    + by apply elem_of_map_to_list.
    + cbn [fst]. rewrite decide_True, last_last; [done|].
      split; [by destruct D|apply removelast_last].
Qed.

Lemma resolve_entry s D f :
  resolve_dir (fs s) (cwd s) (notes_folder s) = inr D →
  valid_name f → Str.endswith_txt f = true →
  resolve (fs s) (cwd s) (os_path.join (notes_folder s) f) = inr (D ++ [f]).
Proof.
  intros HD Hv [stem Hstem%strip_txt_app]%endswith_txt_stem.
  destruct (txt_not_special stem) as (H0 & H1 & H2). rewrite <-Hstem in H0, H1, H2.
  rewrite join_notes_folder.
  - apply resolve_in_dir; try done.
    destruct (notes_folder_shape s) as [pre ->]. by destruct pre.
  - destruct f as [|c f]; [done|]. cbn. apply bool_decide_eq_false.
    intros ->. apply Hv. by left.
Qed.

Lemma load_loop_ok sd wd l0 m inp o ed D files :
  resolve_dir m wd (os_path.join sd "notes") = inr D →
  Forall (λ f, valid_name f ∧ f ∈ entries m D ∧ m !! (D ++ [f]) ≠ Some Dir) files →
  ∀ acc t, ∃ l,
    Notebook.load_loop files acc (State sd wd l0 m inp o t ed)
    = (Ok (acc ++ l), State sd wd l0 m inp o (t + length l) ed)
    ∧ Forall2 (loaded_from (State sd wd l0 m inp o t ed) D)
        (List.filter Str.endswith_txt files) l
    ∧ Note.edited_time <$> l = seq t (length l).
Proof.
  intros HD Hfiles. induction Hfiles as [|f files (Hv & Hin & Hflat) _ IH]; intros acc t.
  - exists []. cbn. by rewrite app_nil_r, Nat.add_0_r.
  - cbn [Notebook.load_loop List.filter].
    destruct (Str.endswith_txt f) eqn:Etxt; [|apply IH].
    apply elem_of_entries in Hin as [node Hnode].
    destruct node as [data|]; [|done].
    set (note := Note.mk (os_path.splitext_root f) data t
                   (os_path.join (os_path.join sd "notes")
                      (os_path.splitext_root f +:+ ".txt"))).
    destruct (IH (acc ++ [note]) (S t)) as (l & Hrun & Hl & Ht).
    exists (note :: l). split_and!.
    + erewrite bind_ok by reflexivity.
      erewrite bind_ok.
      2:{ eapply open_read_ok; [|exact Hnode].
          by apply (resolve_entry (State sd wd l0 m inp o t ed) D f). }
      erewrite bind_ok by apply Note_init_run.
      refine (eq_trans Hrun _). rewrite <-app_assoc. cbn [length app].
      by rewrite Nat.add_succ_r.
    + by constructor.
    + cbn [length seq fmap list_fmap]. cbn. by rewrite Ht.
Qed.

Lemma load_notes_ok (s : state) (D : list string) :
  resolve_dir (fs s) (cwd s) (notes_folder s) = inr D →
  (∀ c, fs s !! (D ++ [c]) ≠ Some Dir) →
  Forall valid_name (entries (fs s) D) →
  ∃ l,
    Notebook.load_notes s = (Ok l, set_clock (clock s + length l) s)
    ∧ Forall2 (loaded_from s D) (List.filter Str.endswith_txt (entries (fs s) D)) l
    ∧ Note.edited_time <$> l = seq (clock s) (length l).
Proof.
  intros HD Hflat Hv. destruct s as [sd wd l0 m inp o t ed].
  unfold fs, cwd, notes_folder, script_dir in *.
  destruct (load_loop_ok sd wd l0 m inp o ed D (entries m D) HD)
    with (acc := @nil Note.t) (t := t) as (l & Hrun & Hl & Ht).
  { apply Forall_forall. intros f Hf. split_and!; [|done..].
    by apply (proj1 (Forall_forall _ _) Hv). }
  exists l. split_and!; [|done..].
  unfold Notebook.load_notes. erewrite bind_ok by reflexivity.
  erewrite bind_ok.
  2:{ unfold os.listdir, mbind, M_bind, gets. cbn.
      unfold notes_folder, script_dir. rewrite HD. reflexivity. }
  by rewrite Hrun.
Qed.


Lemma mixed_entries :
  entries (disk [("a.txt", "x"); ("readme.md", "r")]) ["app"; "notes"]
  = ["a.txt"; "readme.md"].
Proof. vm_compute. reflexivity. Qed.


Lemma loaded_backed s D f note :
  valid_name f → Str.endswith_txt f = true → proper_stem f →
  loaded_from s D f note → backed s D note.
Proof.
  intros Hv [stem Hs]%endswith_txt_stem Hp (Hname & Hfile & Hpath).
  assert (os_path.splitext_root f = stem) as Hroot.
  { unfold os_path.splitext_root. by rewrite Hs, (Hp _ Hs). }
  pose proof (strip_txt_app _ _ Hs) as Hf.
  split_and!.
  - rewrite Hname, Hroot. intros Hin. apply Hv. rewrite Hf.
    apply In_str_app. by left.
  - done.
  - exists (Note.content note). by rewrite Hname, Hroot, <-Hf.
Qed.

Lemma main_start_ok (s : state) (D : list string) :
  healthy s D →
  Forall valid_name (entries (fs s) D) →
  Forall proper_stem (entries (fs s) D) →
  ∃ l,
    main 0 s = (Ok (), say (screen l) (set_notes l (set_clock (clock s + length l) s)))
    ∧ Forall2 (loaded_from s D) (List.filter Str.endswith_txt (entries (fs s) D)) l
    ∧ Forall (backed s D) l.
Proof.
  intros Hh Hv Hp.
  destruct (load_notes_ok s D) as (l & Hrun & Hl & _); [apply Hh..|done|].
  assert (Forall (backed s D) l) as Hb.
  { assert (Forall (λ f, valid_name f ∧ Str.endswith_txt f = true ∧ proper_stem f)
              (List.filter Str.endswith_txt (entries (fs s) D))) as Hfs.
    { apply Forall_forall. intros f [Hin Htxt]%list_elem_of_In%filter_In.
      apply list_elem_of_In in Hin. split_and!; [|done|].
      - by apply (proj1 (Forall_forall _ _) Hv).
      - by apply (proj1 (Forall_forall _ _) Hp). }
    clear Hrun. induction Hl as [|f note fs' l Hfn _ IH]; [constructor|].
    apply Forall_cons in Hfs as [(? & ? & ?) Hfs].
    constructor; [by eapply loaded_backed|by apply IH]. }
  exists l. split_and!; [|done..].
  destruct s as [sd wd l0 m inp o t ed]. norm_state.
  unfold main, Notebook.init. erewrite bind_ok by (erewrite bind_ok by exact Hrun; reflexivity).
  norm_state.
  erewrite bind_ok.
  2:{ apply reset_screen_ok. unfold notes.
      eapply Forall_impl; [exact Hb|]. intros x Hx.
      eapply readable_frame; [..|by apply (backed_readable _ D x Hh)]; done. }
  reflexivity.
Qed.



(** ** [Note.edit] and the [edit] command *)

Lemma try_except_ok {A} (body : M A) h s a s' :
  body s = (Ok a, s') → try_except body h s = (Ok a, s').
Proof. intros H. unfold try_except. by rewrite H. Qed.

Lemma try_except_caught {A} (body : M A) h s e s' :
  body s = (Raise e, s') → is_Exception e = true → try_except body h s = h e s'.
Proof. intros H He. unfold try_except. by rewrite H, He. Qed.

Lemma edit_session_ok sd wd l m o t i n k old saved line rest ed' :
  l !! i = Some n →
  resolve m wd (Note.filepath n) = inr k →
  m !! k = Some (File old) →
  try_except
    (n ← this i;
     subprocess.run_open (Note.filepath n);;
     print "Note is opened in the text editor. Please save your changes and close the editor.";;
     _ ← input "Press Enter when you are done editing...";
     Note_load_content i)
    (λ e, emit (PrintError e))
    (State sd wd l m (line :: rest) o t (Launched saved :: ed'))
  = (Ok (),
     State sd wd (<[i := Note.set_content (default old saved) n]> l)
       (<[k := File (default old saved)]> m) rest
       (o ++ [Print "Note is opened in the text editor. Please save your changes and close the editor.";
              Prompt "Press Enter when you are done editing..."])
       t ed').
Proof.
  intros Hi Hk Hold.
  assert (∀ d, resolve (<[k := File d]> m) wd (Note.filepath n) = inr k) as Hk'.
  { intros d. eapply resolve_mono; [|exact Hk]. intros k'.
    apply dirs_insert_file. by rewrite Hold. }
  apply try_except_ok.
  erewrite bind_ok by by apply this_run.
  destruct saved as [data|].
  - erewrite bind_ok.
    2:{ unfold subprocess.run_open. erewrite bind_ok by reflexivity. norm_state.
        erewrite bind_ok by reflexivity. norm_state.
        apply try_except_ok.
        apply (open_write_ok _ _ k); unfold fs, cwd; [exact Hk|by rewrite Hold]. }
    norm_state. unfold print. erewrite bind_ok by apply emit_run. norm_state.
    erewrite bind_ok by by apply input_ok. norm_state.
    unfold Note_load_content.
    erewrite bind_ok by by apply this_run.
    erewrite bind_ok.
    2:{ eapply open_read_ok; unfold fs, cwd; [apply Hk'|apply lookup_insert_eq]. }
    erewrite setattr_run by done. norm_state.
    cbn [default]. by rewrite <-app_assoc.
  - erewrite bind_ok.
    2:{ unfold subprocess.run_open. erewrite bind_ok by reflexivity. norm_state.
        reflexivity. }
    norm_state. unfold print. erewrite bind_ok by apply emit_run. norm_state.
    erewrite bind_ok by by apply input_ok. norm_state.
    unfold Note_load_content.
    erewrite bind_ok by by apply this_run.
    erewrite bind_ok by by eapply open_read_ok.
    erewrite setattr_run by done. norm_state.
    cbn [default]. by rewrite <-app_assoc, insert_id.
Qed.

Lemma Note_edit_ok sd wd l m o t i n k old saved line rest ed' :
  l !! i = Some n →
  resolve m wd (Note.filepath n) = inr k →
  m !! k = Some (File old) →
  Note_edit i (State sd wd l m (line :: rest) o t (Launched saved :: ed'))
  = (Ok (),
     State sd wd (<[i := Note.set_content (default old saved) n]> l)
       (<[k := File (default old saved)]> m) rest
       (o ++ [Print "Note is opened in the text editor. Please save your changes and close the editor.";
              Prompt "Press Enter when you are done editing..."])
       t ed').
Proof.
  intros Hi Hk Hold. unfold Note_edit.
  erewrite bind_ok by by apply this_run.
  erewrite bind_ok by by apply path_exists_run.
  norm_state. rewrite Hold, bool_decide_eq_true_2 by done.
  erewrite bind_ok by reflexivity.
  by eapply edit_session_ok.
Qed.

Lemma Note_edit_missing_ok sd wd l m o t i n k saved line rest ed' :
  l !! i = Some n →
  resolve m wd (Note.filepath n) = inr k →
  m !! k = None →
  Note_edit i (State sd wd l m (line :: rest) o t (Launched saved :: ed'))
  = (Ok (),
     State sd wd
       (<[i := Note.mk (Note.name n) (default (Note.content n) saved) t
                 (Note.filepath n)]> l)
       (<[k := File (default (Note.content n) saved)]> m) rest
       (o ++ [Print "The note file does not exist. Creating a new file.";
              Print "Note is opened in the text editor. Please save your changes and close the editor.";
              Prompt "Press Enter when you are done editing..."])
       (S t) ed').
Proof.
  intros Hi Hk Hnone. unfold Note_edit.
  assert (i < length l) as Hlt by by eapply lookup_lt_Some.
  erewrite bind_ok by by apply this_run.
  erewrite bind_ok by by apply path_exists_run.
  norm_state. rewrite Hnone, bool_decide_eq_false_2 by by intros [? ?].
  erewrite bind_ok.
  2:{ unfold print. erewrite bind_ok by apply emit_run.
      eapply (Note_save_ok _ _ _ k); norm_state; [done..|].
      by rewrite Hnone. }
  norm_state.
  erewrite (edit_session_ok _ _ _ _ _ _ i (Note.set_edited_time t n) k (Note.content n)).
  - destruct n as [nn nc nt np]. norm_note.
    by rewrite list_insert_insert_eq, insert_insert_eq, <-app_assoc.
  - by apply list_lookup_insert_eq.
  - cbn [Note.filepath Note.set_edited_time].
    eapply resolve_mono; [|exact Hk]. intros k'.
    apply dirs_insert_file. by rewrite Hnone.
  - apply lookup_insert_eq.
Qed.

Lemma edit_ok sd wd l m o t D args i note old saved line rest ed' :
  let s := State sd wd l m (line :: rest) o t (Launched saved :: ed') in
  let k := D ++ [Note.name note +:+ ".txt"] in
  let note' := Note.mk (Note.name note) (default old saved) t (Note.filepath note) in
  healthy s D → Forall (backed s D) l →
  args ≠ [] →
  Notebook.get_note l (Str.join "_" args) = Some i → l !! i = Some note →
  m !! k = Some (File old) →
  CommandProcessor.edit args s
  = (Ok (),
     State sd wd (<[i := note']> l) (<[k := File (default old saved)]> m) rest
       (o ++ [Print "Note is opened in the text editor. Please save your changes and close the editor.";
              Prompt "Press Enter when you are done editing..."]
          ++ screen (<[i := note']> l))
       (S t) ed').
Proof.
  intros s k note' Hh Hb Hargs Hg Hi Hold. unfold s in *. clear s.
  pose proof (proj1 (Forall_lookup _ _) Hb i note Hi) as (Hvn & Hpath & _).
  assert (resolve m wd (Note.filepath note) = inr k) as Hk.
  { rewrite Hpath. apply (resolve_backing _ _ _ Hh Hvn). }
  assert (i < length l) as Hlt by by eapply lookup_lt_Some.
  set (c' := default old saved).
  set (out := o ++ [Print "Note is opened in the text editor. Please save your changes and close the editor.";
                    Prompt "Press Enter when you are done editing..."]).
  set (s2 := State sd wd (<[i := note']> l) (<[k := File c']> m) rest out (S t) ed').
  assert (healthy s2 D) as Hh2.
  { eapply healthy_mono; [..|exact Hh]; [done..|]. intros k'.
    apply dirs_insert_file. unfold fs. by rewrite Hold. }
  assert (Forall (readable s2) (<[i := note']> l)) as Hr.
  { apply Forall_lookup. intros j x Hj.
    assert (valid_name (Note.name x)
            ∧ ∃ d, m !! (D ++ [Note.name x +:+ ".txt"]) = Some (File d)) as [Hvx [d Hd]].
    { destruct (decide (i = j)) as [<-|Hne].
      - rewrite list_lookup_insert_eq in Hj by done. injection Hj as <-.
        split; [done|]. by exists old.
      - rewrite list_lookup_insert_ne in Hj by done.
        destruct (proj1 (Forall_lookup _ _) Hb j x Hj) as (? & _ & ?). done. }
    apply (readable_by_name _ D); [done..|]. unfold s2, fs.
    destruct (decide (k = D ++ [Note.name x +:+ ".txt"])) as [<-|Hkx].
    - exists c'. apply lookup_insert_eq.
    - exists d. by rewrite lookup_insert_ne. }
  unfold CommandProcessor.edit. destruct args as [|a args]; [done|].
  erewrite bind_ok by reflexivity. norm_state. rewrite Hg.
  erewrite bind_ok by by eapply Note_edit_ok.
  erewrite bind_ok.
  2:{ eapply (Note_save_ok _ _ _ k); unfold notes, fs, cwd.
      - by apply list_lookup_insert_eq.
      - cbn [Note.filepath Note.set_content].
        eapply resolve_mono; [|exact Hk]. intros k'.
        apply dirs_insert_file. by rewrite Hold.
      - by rewrite lookup_insert_eq. }
  norm_state. norm_note. rewrite insert_insert_eq, list_insert_insert_eq.
  refine (eq_trans (reset_screen_ok s2 Hr) _). unfold s2, out. norm_state.
  by rewrite <-app_assoc.
Qed.


Lemma editing_healthy saved : healthy (editing saved) ["app"; "notes"].
Proof. split; [vm_compute; reflexivity..|apply disk_flat]. Qed.

Lemma editing_backed saved :
  Forall (backed (editing saved) ["app"; "notes"]) (notes (editing saved)).
Proof.
  apply Forall_singleton. split_and!.
  - by intros [?|[]].
  - vm_compute. reflexivity.
  - exists "on disk". vm_compute. reflexivity.
Qed.




Lemma Note_edit_launch_fails sd wd l m inp o t i n k old e ed' :
  l !! i = Some n →
  resolve m wd (Note.filepath n) = inr k →
  m !! k = Some (File old) →
  is_Exception e = true →
  Note_edit i (State sd wd l m inp o t (LaunchFails e :: ed'))
  = (Ok (), State sd wd l m inp (o ++ [PrintError e]) t ed').
Proof.
  intros Hi Hk Hold He. unfold Note_edit.
  erewrite bind_ok by by apply this_run.
  erewrite bind_ok by by apply path_exists_run.
  norm_state. rewrite Hold, bool_decide_eq_true_2 by done.
  erewrite bind_ok by reflexivity.
  erewrite try_except_caught; [|..|exact He].
  2:{ erewrite bind_ok by by apply this_run.
      erewrite bind_raise; [reflexivity|].
      unfold subprocess.run_open. erewrite bind_ok by reflexivity. norm_state.
      erewrite bind_ok by reflexivity. reflexivity. }
  reflexivity.
Qed.

Lemma edit_launch_fails_ok sd wd l m inp o t D args i note old e ed' :
  let s := State sd wd l m inp o t (LaunchFails e :: ed') in
  let k := D ++ [Note.name note +:+ ".txt"] in
  let note' := Note.set_edited_time t note in
  healthy s D → Forall (backed s D) l →
  args ≠ [] →
  Notebook.get_note l (Str.join "_" args) = Some i → l !! i = Some note →
  m !! k = Some (File old) →
  is_Exception e = true →
  CommandProcessor.edit args s
  = (Ok (),
     State sd wd (<[i := note']> l) (<[k := File (Note.content note)]> m) inp
       (o ++ [PrintError e] ++ screen (<[i := note']> l)) (S t) ed').
Proof.
  intros s k note' Hh Hb Hargs Hg Hi Hold He. unfold s in *. clear s.
  pose proof (proj1 (Forall_lookup _ _) Hb i note Hi) as (Hvn & Hpath & _).
  assert (resolve m wd (Note.filepath note) = inr k) as Hk.
  { rewrite Hpath. apply (resolve_backing _ _ _ Hh Hvn). }
  assert (i < length l) as Hlt by by eapply lookup_lt_Some.
  set (s2 := State sd wd (<[i := note']> l) (<[k := File (Note.content note)]> m) inp
               (o ++ [PrintError e]) (S t) ed').
  assert (healthy s2 D) as Hh2.
  { eapply healthy_mono; [..|exact Hh]; [done..|]. intros k'.
    apply dirs_insert_file. unfold fs. by rewrite Hold. }
  assert (Forall (readable s2) (<[i := note']> l)) as Hr.
  { apply Forall_lookup. intros j x Hj.
    assert (valid_name (Note.name x)
            ∧ ∃ d, m !! (D ++ [Note.name x +:+ ".txt"]) = Some (File d)) as [Hvx [d Hd]].
    { destruct (decide (i = j)) as [<-|Hne].
      - rewrite list_lookup_insert_eq in Hj by done. injection Hj as <-.
        split; [done|]. by exists old.
      - rewrite list_lookup_insert_ne in Hj by done.
        destruct (proj1 (Forall_lookup _ _) Hb j x Hj) as (? & _ & ?). done. }
    apply (readable_by_name _ D); [done..|]. unfold s2, fs.
    destruct (decide (k = D ++ [Note.name x +:+ ".txt"])) as [<-|Hkx].
    - exists (Note.content note). apply lookup_insert_eq.
    - exists d. by rewrite lookup_insert_ne. }
  unfold CommandProcessor.edit. destruct args as [|a args]; [done|].
  erewrite bind_ok by reflexivity. norm_state. rewrite Hg.
  erewrite bind_ok by by eapply Note_edit_launch_fails.
  erewrite bind_ok by by eapply (Note_save_ok _ _ _ k); norm_state; rewrite ?Hold.
  refine (eq_trans (reset_screen_ok s2 Hr) _). unfold s2. norm_state.
  by rewrite <-app_assoc.
Qed.

(** X17. When the editor cannot be launched, the [edit] command reports the
    error and goes on: the note is saved all the same, so its file is
    written over with the content held in memory, whatever the file held, and
    the note is stamped as edited; the screen is then drawn again. *)
Theorem edit_failed_launch_saves_anyway (s : state) (D : list string)
    (args : list string) (i : nat) (note : Note.t) (old : string) (e : exn)
    (ed' : list editor_outcome) :
  healthy s D → Forall (backed s D) (notes s) →
  args ≠ [] →
  Notebook.get_note (notes s) (Str.join "_" args) = Some i →
  notes s !! i = Some note →
  fs s !! (D ++ [Note.name note +:+ ".txt"]) = Some (File old) →
  editor s = LaunchFails e :: ed' →
  is_Exception e = true →
  ∃ s',
    CommandProcessor.edit args s = (Ok (), s')
    ∧ notes s' = <[i := Note.set_edited_time (clock s) note]> (notes s)
    ∧ fs s' = <[D ++ [Note.name note +:+ ".txt"] := File (Note.content note)]> (fs s)
    ∧ stdin s' = stdin s
    ∧ stdout s' = stdout s ++ [PrintError e] ++ screen (notes s').
Proof.
  intros Hh Hb Hargs Hg Hi Hold Hed He.
  destruct s as [sd wd l m inp o t ed]. unfold notes, fs, editor, stdin, clock in *.
  subst ed. eexists. split; [by eapply edit_launch_fails_ok|]. done.
Qed.

Lemma edit_failed_launch_saves_anyway_witness :
  ∃ s',
    CommandProcessor.edit ["a"] (set_editor [LaunchFails (OSError "open")] (editing None))
    = (Ok (), s')
    ∧ notes s'
      = <[0 := Note.set_edited_time
                 (clock (set_editor [LaunchFails (OSError "open")] (editing None))) note_a]>
          (notes (set_editor [LaunchFails (OSError "open")] (editing None)))
    ∧ fs s' = <[["app"; "notes"] ++ [Note.name note_a +:+ ".txt"]
                := File (Note.content note_a)]>
                (fs (set_editor [LaunchFails (OSError "open")] (editing None)))
    ∧ stdin s' = stdin (set_editor [LaunchFails (OSError "open")] (editing None))
    ∧ stdout s'
      = stdout (set_editor [LaunchFails (OSError "open")] (editing None))
        ++ [PrintError (OSError "open")] ++ screen (notes s').
Proof.
  apply (edit_failed_launch_saves_anyway
           (set_editor [LaunchFails (OSError "open")] (editing None))
           ["app"; "notes"] ["a"] 0 note_a "on disk" (OSError "open") []).
  - apply (editing_healthy None).
  - apply (editing_backed None).
  - done.
  - vm_compute. reflexivity.
  - reflexivity.
  - vm_compute. reflexivity.
  - reflexivity.
  - reflexivity.
Defined.

(** ** The path of a note follows its name *)

Create HintDb paths_db.
Ltac keeps_paths := repeat first [ solve [auto with paths_db] | keeps_step ].

Lemma keeps_paths_emit e : keeps paths (emit e).
Proof. by apply keeps_emit. Qed.
Lemma keeps_paths_print x : keeps paths (print x).
Proof. by apply keeps_emit. Qed.
#[local] Hint Resolve keeps_paths_emit keeps_paths_print : paths_db.
Lemma keeps_paths_input p : keeps paths (input p).
Proof. unfold input. keeps_paths. Qed.
Lemma keeps_paths_now : keeps paths now.
Proof. unfold now. keeps_paths. Qed.
Lemma keeps_paths_locate p : keeps paths (locate p).
Proof. unfold locate. keeps_paths. Qed.
#[local] Hint Resolve keeps_paths_input keeps_paths_now keeps_paths_locate : paths_db.
Lemma keeps_paths_open_read p : keeps paths (open_read p).
Proof. unfold open_read. keeps_paths. Qed.
Lemma keeps_paths_open_write p data : keeps paths (open_write p data).
Proof. unfold open_write. keeps_paths. Qed.
#[local] Hint Resolve keeps_paths_open_read keeps_paths_open_write : paths_db.
Lemma keeps_paths_rename src dst : keeps paths (os.rename src dst).
Proof. unfold os.rename. keeps_paths. Qed.
Lemma keeps_paths_exists p : keeps paths (os.path_exists p).
Proof. unfold os.path_exists. keeps_paths. Qed.
Lemma keeps_paths_run_open p : keeps paths (subprocess.run_open p).
Proof. unfold subprocess.run_open. keeps_paths. Qed.
Lemma keeps_paths_setattr i g :
  (∀ n, Note.name (g n) = Note.name n) →
  (∀ n, Note.filepath (g n) = Note.filepath n) →
  keeps paths (setattr i g).
Proof.
  intros H1 H2 s. unfold paths, setattr, modify. cbn [snd notes set_notes script_dir].
  f_equal. rewrite (list_fmap_alter _ g id); [by rewrite list_alter_id|].
  apply Forall_forall. intros x _. cbn. by rewrite H1, H2.
Qed.
Lemma keeps_paths_set_edited_time i t : keeps paths (setattr i (Note.set_edited_time t)).
Proof. by apply keeps_paths_setattr. Qed.
Lemma keeps_paths_set_content i c : keeps paths (setattr i (Note.set_content c)).
Proof. by apply keeps_paths_setattr. Qed.
#[local] Hint Resolve keeps_paths_rename keeps_paths_exists keeps_paths_run_open
  keeps_paths_set_edited_time keeps_paths_set_content : paths_db.
Lemma keeps_paths_save i : keeps paths (Note_save i).
Proof. unfold Note_save, this. keeps_paths. Qed.
Lemma keeps_paths_load_content i : keeps paths (Note_load_content i).
Proof. unfold Note_load_content, this. keeps_paths. Qed.
#[local] Hint Resolve keeps_paths_save keeps_paths_load_content : paths_db.
Lemma keeps_paths_edit i : keeps paths (Note_edit i).
Proof. unfold Note_edit, this. keeps_paths. Qed.
Lemma keeps_paths_reset_screen : keeps paths Notebook.reset_screen.
Proof. intros s. destruct (reset_screen_cases s) as [->|[e ->]]; done. Qed.
#[local] Hint Resolve keeps_paths_edit keeps_paths_reset_screen : paths_db.
Lemma keeps_paths_delete_note name : keeps paths (Notebook.delete_note name).
Proof. unfold Notebook.delete_note. keeps_paths. Qed.
#[local] Hint Resolve keeps_paths_delete_note : paths_db.

Lemma paths_ok_keeps {A} (c : M A) s :
  keeps paths c → paths_ok s → paths_ok (c s).2.
Proof. intros Hc. unfold paths_ok. by rewrite Hc. Qed.

Lemma create_note_paths_ok name s :
  paths_ok s → paths_ok (Notebook.create_note name s).2.
Proof.
  destruct s as [sd wd l m i o t ed]. intros Hok.
  unfold Notebook.create_note. erewrite bind_ok by reflexivity.
  destruct (Notebook.note_exists _ name); [done|].
  unfold stdin. destruct i as [|line rest].
  - by erewrite bind_raise by by apply input_eof.
  - erewrite bind_ok by by apply input_ok.
    erewrite bind_ok by apply Note_init_run.
    erewrite bind_ok by reflexivity.
    match goal with |- paths_ok (?c ?s0).2 =>
      assert (keeps paths c) as Hk; [|apply (paths_ok_keeps c s0 Hk)] end.
    { keeps_paths. }
    unfold paths_ok, paths in *. norm_state. cbn [fst snd] in *.
    rewrite fmap_app. apply Forall_app. split; [done|].
    by apply Forall_singleton.
Qed.

Lemma rename_note_paths_ok old_name new_name s :
  paths_ok s → paths_ok (Notebook.rename_note old_name new_name s).2.
Proof.
  destruct s as [sd wd l m inp o t ed]. intros Hok.
  unfold Notebook.rename_note. erewrite bind_ok by reflexivity.
  destruct (bool_decide _ && _); [done|].
  unfold notes.
  destruct (Notebook.get_note l old_name) as [i|] eqn:Hg.
  - erewrite bind_ok by reflexivity.
    erewrite bind_ok by reflexivity.
    erewrite bind_ok by reflexivity.
    erewrite bind_ok by reflexivity.
    match goal with |- paths_ok (?c ?s0).2 =>
      assert (keeps paths c) as Hk; [|apply (paths_ok_keeps c s0 Hk)] end.
    { unfold this. keeps_paths. }
    apply get_note_Some in Hg as (note & Hi & _).
    unfold paths_ok, paths in *. unfold setattr, modify. norm_state. cbn [fst snd] in *.
    rewrite (alter_as_insert _ l _ _ Hi).
    rewrite (alter_as_insert _ _ i (Note.set_name new_name note))
      by (apply list_lookup_insert_eq; by eapply lookup_lt_Some).
    rewrite list_insert_insert_eq, list_fmap_insert.
    apply Forall_insert; [done|]. reflexivity.
  - match goal with |- paths_ok (?c ?s0).2 =>
      assert (keeps paths c) as Hk; [|by apply (paths_ok_keeps c s0 Hk)] end.
    keeps_paths.
Qed.

Lemma process_paths_ok line s :
  paths_ok s → paths_ok (CommandProcessor.process line s).2.
Proof.
  intros Hok. unfold CommandProcessor.process.
  destruct (Str.split line) as [|token args]; [done|].
  destruct (CommandProcessor.commands !! Str.lower token) as [handler|] eqn:E; [|done].
  apply commands_lookup in E. set_unfold.
  destruct E as [E|[E|[E|[E|[E|[E|[E|[E|[E|[]]]]]]]]]]; injection E as _ ->.
  - apply (paths_ok_keeps Notebook.reset_screen); [|done].
    apply keeps_paths_reset_screen.
  - destruct args; [done|]. by apply create_note_paths_ok.
  - apply paths_ok_keeps; [|done]. unfold CommandProcessor.edit. keeps_paths.
  - apply paths_ok_keeps; [|done]. unfold CommandProcessor.delete. keeps_paths.
  - destruct args as [|? [|? ?]]; [done..|]. by apply rename_note_paths_ok.
  - done.
  - done.
  - done.
  - done.
Qed.



Lemma loop_paths_ok n s : paths_ok s → paths_ok (loop n s).2.
Proof.
  revert s. induction n as [|n IH]; intros s Hok; [done|].
  cbn [loop]. unfold mbind at 1, M_bind at 1.
  pose proof (paths_ok_keeps (input "Notebook> ") s (keeps_paths_input _) Hok) as H1.
  destruct (input "Notebook> " s) as [[line|e] s1]; cbn [snd] in H1; [|done].
  unfold mbind, M_bind.
  pose proof (process_paths_ok line s1 H1) as H2.
  destruct (CommandProcessor.process line s1) as [[[]|e] s2]; cbn [snd] in H2; [|done].
  by apply IH.
Qed.

Lemma keeps_frame_load_loop files acc : keeps loader_frame (Notebook.load_loop files acc).
Proof.
  revert acc. induction files as [|f files IH]; intros acc; cbn [Notebook.load_loop].
  - apply keeps_ret.
  - destruct (Str.endswith_txt f); [|apply IH].
    unfold open_read, locate, Note_init, now. keeps. apply IH.
Qed.

Lemma keeps_frame_load_notes : keeps loader_frame Notebook.load_notes.
Proof.
  unfold Notebook.load_notes, os.listdir. keeps; apply keeps_frame_load_loop.
Qed.

Lemma load_loop_paths files acc s l s' :
  Notebook.load_loop files acc s = (Ok l, s') →
  Forall (λ n, path_of (script_dir s) (Note.name n, Note.filepath n)) acc →
  Forall (λ n, path_of (script_dir s) (Note.name n, Note.filepath n)) l.
Proof.
  revert acc s. induction files as [|f files IH]; intros acc s.
  - cbn. by intros [= <- _].
  - cbn [Notebook.load_loop]. destruct (Str.endswith_txt f); [|apply IH].
    erewrite bind_ok by reflexivity.
    unfold mbind at 1, M_bind at 1. rewrite open_read_run.
    destruct (read_file _ _ _) as [data|e]; [|done].
    erewrite bind_ok by apply Note_init_run.
    intros H Hacc. apply IH in H; [done|].
    apply Forall_app. split; [done|]. by apply Forall_singleton.
Qed.

Lemma main_paths_ok n s : notes s = [] → paths_ok (main n s).2.
Proof.
  intros Hnil. unfold main, Notebook.init.
  pose proof (keeps_frame_load_notes s) as Hf.
  destruct (Notebook.load_notes s) as [[l|e] s1] eqn:E; cbn [snd] in Hf.
  - injection Hf as Hsd Hn.
    erewrite bind_ok by (erewrite bind_ok by exact E; reflexivity).
    assert (paths_ok (set_notes l s1)) as Hok.
    { unfold paths_ok, paths. cbn [fst snd notes script_dir set_notes].
      apply Forall_fmap. rewrite Hsd.
      revert E. unfold Notebook.load_notes. erewrite bind_ok by reflexivity.
      unfold mbind, M_bind.
      destruct (os.listdir (notes_folder s) s) as [[files|e] s0] eqn:E0; [|done].
      assert (s0 = s) as ->.
      { revert E0. unfold os.listdir, mbind, M_bind, gets. cbn.
        destruct (resolve_dir _ _ _); unfold raise, mret, M_ret; congruence. }
      intros H. by apply load_loop_paths in H. }
    unfold mbind, M_bind.
    pose proof (paths_ok_keeps Notebook.reset_screen _ keeps_paths_reset_screen Hok) as H1.
    destruct (Notebook.reset_screen (set_notes l s1)) as [[[]|e] s2]; cbn [snd] in H1;
      [|done].
    by apply loop_paths_ok.
  - erewrite bind_raise by (erewrite bind_raise by exact E; reflexivity).
    injection Hf as _ Hn. unfold paths_ok, paths. cbn [fst snd]. rewrite Hn, Hnil.
    constructor.
Qed.



(** ** The notes mirror the folder *)

Lemma mirror_core s s' D : core s' = core s → mirror s D → mirror s' D.
Proof.
  destruct s, s'. unfold core. cbn. intros [= -> -> -> ->] H. exact H.
Qed.

Lemma mirror_keeps {A} (c : M A) s D :
  keeps core c → mirror s D → mirror (c s).2 D.
Proof. intros Hc. apply mirror_core, Hc. Qed.

Lemma keeps_core_reset_screen : keeps core Notebook.reset_screen.
Proof. intros s. destruct (reset_screen_cases s) as [->|[e ->]]; done. Qed.

Lemma keeps_core_emit e : keeps core (emit e).
Proof. by apply keeps_emit. Qed.

Lemma keeps_core_input p : keeps core (input p).
Proof. unfold input. keeps; apply keeps_core_emit. Qed.

Lemma keeps_core_delete args : keeps core (CommandProcessor.delete args).
Proof.
  unfold CommandProcessor.delete. destruct args as [|name args]; [apply keeps_core_emit|].
  apply keeps_bind; [|intros []; apply keeps_core_emit].
  unfold Notebook.delete_note. apply keeps_bind; [apply keeps_gets|intros l].
  destruct (Notebook.get_note l name) as [i|].
  - apply keeps_bind; [apply keeps_core_input|intros answer].
    destruct (decide _).
    + intros s0. reflexivity.
    + apply keeps_bind; [apply keeps_core_emit|intros _; apply keeps_ret].
  - apply keeps_bind; [apply keeps_core_reset_screen|intros _; apply keeps_ret].
Qed.

Section preserves.
Context (J : state → Prop).

Lemma preserves_ret {A} (a : A) : preserves J (mret a).
Proof. by intros s. Qed.
Lemma preserves_pass : preserves J pass.
Proof. by intros s. Qed.
Lemma preserves_raise {A} e : preserves J (raise (A := A) e).
Proof. by intros s. Qed.
Lemma preserves_gets {A} (g : state → A) : preserves J (gets g).
Proof. by intros s. Qed.
Lemma preserves_modify g : (∀ s, J s → J (g s)) → preserves J (modify g).
Proof. intros H s. apply H. Qed.
Lemma preserves_bind {A C} (c : M A) (f : A → M C) :
  preserves J c → (∀ a, preserves J (f a)) → preserves J (c ≫= f).
Proof.
  intros Hc Hf s Hs. unfold mbind, M_bind. specialize (Hc s Hs).
  destruct (c s) as [[a|e] s']; cbn [snd] in *; [|done]. by apply Hf.
Qed.
Lemma preserves_try {A} (c : M A) h :
  preserves J c → (∀ e, preserves J (h e)) → preserves J (try_except c h).
Proof.
  intros Hc Hh s Hs. unfold try_except. specialize (Hc s Hs).
  destruct (c s) as [[a|e] s']; cbn [snd] in *; [done|].
  destruct (is_Exception e); [|done]. by apply Hh.
Qed.
End preserves.

Section holds.
Context (J : state → Prop) (E : exn → Prop).

Lemma holds_ret {A} (a : A) : holds J E (mret a).
Proof. by intros s. Qed.
Lemma holds_pass : holds J E pass.
Proof. by intros s. Qed.
Lemma holds_gets {A} (g : state → A) : holds J E (gets g).
Proof. by intros s. Qed.
Lemma holds_raise {A} e : E e → holds J E (raise (A := A) e).
Proof. intros He s Hs. split; [done|]. by intros e' [= <-]. Qed.
Lemma holds_modify g : (∀ s, J s → J (g s)) → holds J E (modify g).
Proof. intros H s Hs. split; [by apply H|done]. Qed.
Lemma holds_bind {A C} (c : M A) (f : A → M C) :
  holds J E c → (∀ a, holds J E (f a)) → holds J E (c ≫= f).
Proof.
  intros Hc Hf s Hs. unfold mbind, M_bind. destruct (Hc s Hs) as [H1 H2].
  destruct (c s) as [[a|e] s']; cbn [fst snd] in *; [by apply Hf|].
  split; [done|]. intros e' [= <-]. by apply H2.
Qed.
End holds.

Lemma holds_try {A} (J : state → Prop) (E E' : exn → Prop) (c : M A) h :
  holds J E' c →
  (∀ e, is_Exception e = true → holds J E (h e)) →
  (∀ e, E' e → is_Exception e = false → E e) →
  holds J E (try_except c h).
Proof.
  intros Hc Hh HE s Hs. unfold try_except. destruct (Hc s Hs) as [H1 H2].
  destruct (c s) as [[a|e] s']; cbn [fst snd] in *; [done|].
  destruct (is_Exception e) eqn:Ee; [by apply Hh|].
  split; [done|]. intros e' [= <-]. apply HE; [by apply H2|done].
Qed.

Section edit_frame.
Context (sd : string) (wd : list string) (P : list (string * string))
  (m0 : gmap (list string) node) (k : list string) (i : nat) (nm p0 old0 : string)
  (E : exn → Prop).
Hypothesis Hres : resolve m0 wd p0 = inr k.
Hypothesis Hfile : m0 !! k = Some (File old0).
Hypothesis HP : P !! i = Some (nm, p0).

Local Notation "'J'" := (edit_frame sd wd P m0 k).

Lemma frame_core (g : state → state) :
  (∀ s, core (g s) = core s) → holds J E (modify g).
Proof.
  intros Hg. apply holds_modify. intros s (H1 & H2 & H3 & H4 & H5).
  specialize (Hg s). unfold core, edit_frame, paths in *.
  injection Hg as -> -> -> ->. done.
Qed.

Lemma frame_emit e : holds J E (emit e).
Proof. by apply frame_core. Qed.

Lemma frame_print x : holds J E (print x).
Proof. apply frame_emit. Qed.

Lemma frame_input p : E EOFError → holds J E (input p).
Proof.
  intros HE. unfold input. apply holds_bind; [apply frame_emit|intros _].
  apply holds_bind; [apply holds_gets|intros [|line rest]].
  - by apply holds_raise.
  - apply holds_bind; [by apply frame_core|intros _; apply holds_ret].
Qed.

Lemma frame_now : holds J E now.
Proof.
  unfold now. apply holds_bind; [apply holds_gets|intros t].
  apply holds_bind; [by apply frame_core|intros _; apply holds_ret].
Qed.

Lemma frame_resolve s : J s → resolve (fs s) (cwd s) p0 = inr k.
Proof.
  intros (_ & -> & _ & Hoff & d & Hk). eapply resolve_mono; [|exact Hres].
  intros k' Hk'. destruct (decide (k' = k)) as [->|Hne]; [congruence|].
  by rewrite Hoff.
Qed.

Lemma frame_open_read : holds J E (open_read p0).
Proof.
  intros s Hs. pose proof (frame_resolve s Hs) as Hk.
  pose proof Hs as (H1 & H2 & H3 & Hoff & d & Hd).
  by rewrite (open_read_ok s p0 k d Hk Hd).
Qed.

Lemma frame_path_exists p : holds J E (os.path_exists p).
Proof.
  intros s Hs. unfold os.path_exists, mbind, M_bind, gets. cbn.
  by destruct (resolve (fs s) (cwd s) p).
Qed.

Lemma frame_open_write data : holds J E (open_write p0 data).
Proof.
  intros s Hs. pose proof (frame_resolve s Hs) as Hk.
  destruct Hs as (H1 & H2 & H3 & Hoff & d & Hd).
  rewrite (open_write_ok s p0 k data Hk) by by rewrite Hd.
  split; [|done].
  destruct s as [sd' wd' l m inp o t ed]. unfold edit_frame, paths in *.
  cbn [snd fst script_dir cwd notes fs set_fs] in *.
  split_and!; [done..| |].
  - intros k' Hne. rewrite lookup_insert_ne by done. by apply Hoff.
  - exists data. apply lookup_insert_eq.
Qed.

Lemma frame_setattr j g :
  (∀ n, Note.name (g n) = Note.name n) →
  (∀ n, Note.filepath (g n) = Note.filepath n) →
  holds J E (setattr j g).
Proof.
  intros H1 H2 s (? & ? & HPs & ? & ?).
  pose proof (keeps_paths_setattr j g H1 H2 s) as Hk.
  unfold setattr, modify in *. cbn [fst snd] in *.
  split; [|done]. unfold edit_frame. rewrite Hk. done.
Qed.

Lemma frame_this {A} (f : Note.t → M A) :
  (∀ n, Note.filepath n = p0 → holds J E (f n)) → holds J E (this i ≫= f).
Proof.
  intros Hf s Hs. unfold this. erewrite bind_ok by reflexivity.
  apply Hf; [|done]. destruct Hs as (_ & _ & HPs & _).
  unfold paths in HPs. cbn [snd] in HPs. rewrite <-HPs in HP.
  rewrite list_lookup_fmap in HP.
  destruct (notes s !! i) as [n|] eqn:En; [|done].
  rewrite (list_lookup_total_correct _ _ _ En). by injection HP.
Qed.

Lemma frame_save : holds J E (Note_save i).
Proof.
  unfold Note_save. apply frame_this. intros n ->.
  apply holds_bind; [apply frame_open_write|intros _].
  apply holds_bind; [apply frame_now|intros t].
  by apply frame_setattr.
Qed.

Lemma frame_load_content : holds J E (Note_load_content i).
Proof.
  unfold Note_load_content. apply frame_this. intros n ->.
  apply holds_bind; [apply frame_open_read|intros data].
  by apply frame_setattr.
Qed.
End edit_frame.

Section edit_frame_launch.
Context (sd : string) (wd : list string) (P : list (string * string))
  (m0 : gmap (list string) node) (k : list string) (i : nat) (nm p0 old0 : string).
Hypothesis Hres : resolve m0 wd p0 = inr k.
Hypothesis Hfile : m0 !! k = Some (File old0).
Hypothesis HP : P !! i = Some (nm, p0).

Local Notation "'J'" := (edit_frame sd wd P m0 k).

(** The launcher may raise anything. *)
Lemma frame_run_open : holds J (λ _, True) (subprocess.run_open p0).
Proof.
  unfold subprocess.run_open.
  apply holds_bind; [apply holds_gets|intros [|[e|[data|]] rest]].
  - apply holds_pass.
  - apply holds_bind; [by apply frame_core|intros _; by apply holds_raise].
  - apply holds_bind; [by apply frame_core|intros _].
    apply (holds_try _ _ (λ _, True)); [by eapply frame_open_write| |done].
    intros _ _. apply holds_pass.
  - by apply frame_core.
Qed.

(** Whatever an [except Exception] lets through is no [Exception]. *)
Lemma frame_edit : holds J (λ e, is_Exception e = false) (Note_edit i).
Proof.
  unfold Note_edit. eapply frame_this; [done..|]. intros n ->.
  apply holds_bind; [apply frame_path_exists|intros ex].
  apply holds_bind.
  { destruct ex; [apply holds_pass|].
    apply holds_bind; [apply frame_print|intros _; by eapply frame_save]. }
  intros _. apply (holds_try _ _ (λ _, True)); [|intros e _; apply frame_emit|done].
  eapply frame_this; [done..|]. intros n' ->.
  apply holds_bind; [apply frame_run_open|intros _].
  apply holds_bind; [apply frame_print|intros _].
  apply holds_bind; [by apply frame_input|intros _].
  by eapply frame_load_content.
Qed.

Lemma frame_edit_save :
  holds J (λ e, is_Exception e = false) (Note_edit i;; Note_save i).
Proof.
  apply holds_bind; [apply frame_edit|intros _]. by eapply frame_save.
Qed.
End edit_frame_launch.

Lemma frame_mirror s s' D i note :
  mirror s D → notes s !! i = Some note →
  edit_frame (script_dir s) (cwd s) (paths s).2 (fs s)
    (D ++ [Note.name note +:+ ".txt"]) s' →
  mirror s' D.
Proof.
  intros (Hh & Hb & Hu) Hi (Hsd & Hwd & HP & Hoff & d & Hd).
  pose proof (proj1 (Forall_lookup _ _) Hb i note Hi) as (_ & _ & data & Hdata).
  unfold paths in HP. cbn [snd] in HP.
  assert (notes_folder s' = notes_folder s) as Hnf.
  { unfold notes_folder. by rewrite Hsd. }
  split_and!.
  - eapply healthy_mono; [exact Hsd|exact Hwd| |exact Hh]. intros k'.
    destruct (decide (k' = D ++ [Note.name note +:+ ".txt"])) as [->|Hne].
    + rewrite Hd, Hdata. split; congruence.
    + by rewrite Hoff.
  - apply Forall_lookup. intros j x' Hj.
    apply (f_equal (.!! j)) in HP. rewrite !list_lookup_fmap, Hj in HP.
    destruct (notes s !! j) as [x|] eqn:Hx; [|done]. injection HP as Hn Hp.
    destruct (proj1 (Forall_lookup _ _) Hb j x Hx) as (Hvx & Hpx & dx & Hdx).
    split_and!.
    + by rewrite Hn.
    + by rewrite Hp, Hn, Hnf.
    + rewrite Hn.
      destruct (decide (D ++ [Note.name x +:+ ".txt"]
                        = D ++ [Note.name note +:+ ".txt"])) as [->|Hne].
      * by exists d.
      * exists dx. by rewrite Hoff.
  - apply unique_names_alt. apply unique_names_alt in Hu.
    apply (f_equal (fmap fst)) in HP. rewrite <-!list_fmap_compose in HP.
    change (Note.name <$> notes s' = Note.name <$> notes s) in HP. by rewrite HP.
Qed.

Lemma edit_found s D i note :
  mirror s D → notes s !! i = Some note →
  mirror ((Note_edit i;; Note_save i) s).2 D
  ∧ ∀ e, ((Note_edit i;; Note_save i) s).1 = Raise e → is_Exception e = false.
Proof.
  intros Hm Hi. pose proof Hm as (Hh & Hb & _).
  destruct (proj1 (Forall_lookup _ _) Hb i note Hi) as (Hv & Hp & data & Hdata).
  destruct (frame_edit_save (script_dir s) (cwd s) (paths s).2 (fs s)
              (D ++ [Note.name note +:+ ".txt"]) i (Note.name note)
              (Note.filepath note) data) with (s := s) as [HJ HE].
  - rewrite Hp. by apply resolve_backing.
  - done.
  - unfold paths. cbn [snd]. by rewrite list_lookup_fmap, Hi.
  - split_and!; [done..|]. by exists data.
  - split; [|done]. by apply (frame_mirror s _ D i note Hm Hi).
Qed.

Lemma mirror_readable s D : mirror s D → Forall (readable s) (notes s).
Proof.
  intros (Hh & Hb & _). eapply Forall_impl; [exact Hb|].
  intros x. by apply backed_readable.
Qed.

Lemma edit_safe args s D :
  mirror s D →
  mirror (CommandProcessor.edit args s).2 D
  ∧ ∀ e, (CommandProcessor.edit args s).1 = Raise e → is_Exception e = false.
Proof.
  intros Hm. unfold CommandProcessor.edit. destruct args as [|a args].
  { split; [|done]. apply (mirror_keeps (print _)); [apply keeps_core_emit|done]. }
  erewrite bind_ok by reflexivity.
  destruct (Notebook.get_note (notes s) _) as [i|] eqn:Hg.
  2:{ split; [|done]. apply (mirror_keeps (print _)); [apply keeps_core_emit|done]. }
  apply get_note_Some in Hg as (note & Hi & _).
  destruct (edit_found s D i note Hm Hi) as [Hm2 HE]. revert Hm2 HE.
  unfold mbind, M_bind.
  destruct (Note_edit i s) as [[[]|e] s1]; cbn [fst snd].
  2:{ intros Hm2 HE. split; [done|]. intros e' [= <-]. by apply HE. }
  destruct (Note_save i s1) as [[[]|e] s2]; cbn [fst snd].
  2:{ intros Hm2 HE. split; [done|]. intros e' [= <-]. by apply HE. }
  intros Hm2 _. rewrite (reset_screen_ok s2 (mirror_readable s2 D Hm2)).
  split; [|done]. cbn [snd]. exact Hm2.
Qed.

Lemma create_note_ok sd wd l m o t ed D name c rest :
  let s := State sd wd l m (c :: rest) o t ed in
  let note := Note.mk name c (S t)
                (os_path.join (os_path.join sd "notes") (name +:+ ".txt")) in
  let s1 := State sd wd (l ++ [note]) (<[D ++ [name +:+ ".txt"] := File c]> m) rest
              (o ++ [Prompt "Enter the content of your note (press Enter to finish): "])
              (S (S t)) ed in
  healthy s D → Forall (backed s D) l → valid_name name →
  Notebook.note_exists l name = false →
  Notebook.create_note name s = (Ok (), say (screen (l ++ [note])) s1)
  ∧ healthy s1 D ∧ Forall (backed s1 D) (l ++ [note]).
Proof.
  intros s note s1 Hh Hb Hv Hex. unfold s in *. clear s.
  set (k := D ++ [name +:+ ".txt"]) in *.
  assert (healthy s1 D) as Hh1.
  { eapply healthy_mono; [..|exact Hh]; [done..|]. intros k'.
    apply dirs_insert_file, Hh. }
  assert (Forall (backed s1 D) (l ++ [note])) as Hb1.
  { apply Forall_app. split.
    - eapply Forall_impl; [exact Hb|]. intros x (Hx & Hpx & data & Hf).
      split_and!; [done..|]. unfold s1, fs in *.
      destruct (decide (k = D ++ [Note.name x +:+ ".txt"])) as [<-|Hne].
      + exists c. apply lookup_insert_eq.
      + exists data. by rewrite lookup_insert_ne.
    - apply Forall_singleton. split_and!; [done..|].
      exists c. apply lookup_insert_eq. }
  split_and!; [|done..].
  assert (Forall (readable s1) (l ++ [note])) as Hr.
  { eapply Forall_impl; [exact Hb1|]. intros x. by apply backed_readable. }
  unfold Notebook.create_note.
  erewrite bind_ok by reflexivity. norm_state. rewrite Hex.
  erewrite bind_ok by (apply input_ok; reflexivity).
  erewrite bind_ok by apply Note_init_run.
  erewrite bind_ok by reflexivity. norm_state.
  erewrite bind_ok.
  2:{ eapply (Note_save_ok _ _ _ k); unfold notes, fs, cwd.
      - by rewrite lookup_app_r, Nat.sub_diag.
      - apply (resolve_backing _ _ _ Hh Hv).
      - apply Hh. }
  norm_state.
  rewrite <-(Nat.add_0_r (length l)) at 1. rewrite insert_app_r.
  apply (reset_screen_ok s1 Hr).
Qed.

Lemma create_safe name s D :
  mirror s D → valid_name name →
  mirror (Notebook.create_note name s).2 D
  ∧ ((Notebook.create_note name s).1 = Ok ()
     ∨ (Notebook.create_note name s).1 = Raise EOFError).
Proof.
  intros Hm Hv. pose proof (create_note_unique name s (proj2 (proj2 Hm))) as Hu.
  destruct Hm as (Hh & Hb & Hu0).
  destruct s as [sd wd l m inp o t ed]. unfold notes in Hb, Hu0.
  destruct (Notebook.note_exists l name) eqn:Hex.
  - assert (Notebook.create_note name (State sd wd l m inp o t ed)
            = (Ok (), say [Print Notebook.exists_msg] (State sd wd l m inp o t ed))) as ->.
    { unfold Notebook.create_note. erewrite bind_ok by reflexivity.
      norm_state. by rewrite Hex. }
    split; [exact (conj Hh (conj Hb Hu0))|by left].
  - destruct inp as [|c rest].
    + assert (Notebook.create_note name (State sd wd l m [] o t ed)
              = (Raise EOFError,
                 say [Prompt "Enter the content of your note (press Enter to finish): "]
                   (State sd wd l m [] o t ed))) as ->.
      { unfold Notebook.create_note. erewrite bind_ok by reflexivity.
        norm_state. rewrite Hex. by erewrite bind_raise by by apply input_eof. }
      split; [exact (conj Hh (conj Hb Hu0))|by right].
    + destruct (create_note_ok sd wd l m o t ed D name c rest Hh Hb Hv Hex)
        as (Hrun & Hh1 & Hb1).
      rewrite Hrun in Hu |- *. split; [exact (conj Hh1 (conj Hb1 Hu))|by left].
Qed.

Lemma rename_safe old_name new_name s D :
  mirror s D → valid_name new_name →
  mirror (Notebook.rename_note old_name new_name s).2 D
  ∧ (Notebook.rename_note old_name new_name s).1 = Ok ().
Proof.
  intros Hm Hv.
  pose proof (rename_note_unique old_name new_name s (proj2 (proj2 Hm))) as Hu'.
  destruct (bool_decide (Str.lower old_name ≠ Str.lower new_name)
            && Notebook.note_exists (notes s) new_name) eqn:Hc.
  { assert (Notebook.rename_note old_name new_name s
            = print Notebook.exists_msg s) as ->.
    { unfold Notebook.rename_note. erewrite bind_ok by reflexivity. by rewrite Hc. }
    split; [|done]. apply (mirror_keeps (print _)); [apply keeps_core_emit|done]. }
  destruct (Notebook.get_note (notes s) old_name) as [i|] eqn:Hg.
  2:{ assert (Notebook.rename_note old_name new_name s
              = (Notebook.reset_screen;; print "Note not found.") s) as ->.
      { unfold Notebook.rename_note. erewrite bind_ok by reflexivity.
        by rewrite Hc, Hg. }
      split.
      - apply mirror_keeps; [|done].
        apply keeps_bind; [apply keeps_core_reset_screen|intros _; apply keeps_core_emit].
      - by erewrite bind_ok by apply (reset_screen_ok s (mirror_readable s D Hm)). }
  destruct Hm as (Hh & Hb & Hu).
  pose proof Hg as (note & Hi & _)%get_note_Some.
  destruct (rename_note_ok s D old_name new_name i note Hh Hb Hu Hv Hg Hi)
    as (s' & Hrun & Hnotes & Hfs & Hsd & Hwd & _ & Hh').
  { apply andb_false_iff in Hc as [Hc|Hc]; [left|by right].
    apply bool_decide_eq_false in Hc. by apply dec_stable. }
  rewrite Hrun in Hu' |- *. cbn [fst snd] in *.
  split; [|done]. split_and!; [done| |done].
  assert (notes_folder s' = notes_folder s) as Hnf.
  { unfold notes_folder. by rewrite Hsd. }
  pose proof (proj1 (Forall_lookup _ _) Hb i note Hi) as (Hvn & _ & data & Hdata).
  rewrite Hnotes. apply Forall_lookup. intros j x Hj.
  destruct (decide (i = j)) as [<-|Hne].
  - rewrite list_lookup_insert_eq in Hj by by eapply lookup_lt_Some.
    injection Hj as <-. split_and!; [done|by rewrite Hnf|].
    exists (Note.content note). rewrite Hfs. apply lookup_insert_eq.
  - rewrite list_lookup_insert_ne in Hj by done.
    destruct (proj1 (Forall_lookup _ _) Hb j x Hj) as (Hvx & Hpx & dx & Hdx).
    split_and!; [done|by rewrite Hnf|]. rewrite Hfs.
    destruct (decide (D ++ [new_name +:+ ".txt"] = D ++ [Note.name x +:+ ".txt"]))
      as [<-|Hkb].
    + exists (Note.content note). apply lookup_insert_eq.
    + exists dx. rewrite lookup_insert_ne by done.
      rewrite lookup_delete_ne; [done|].
      intros Heq. apply Hne. apply app_inv_head in Heq.
      injection Heq as Heq%append_inj_r.
      apply (unique_names_lookup (notes s) i j note x Hu Hi Hj). by rewrite Heq.
Qed.

(** The words of a line hold characters of the line only. *)
Lemma In_str_rev_app c (a b : string) :
  Str.In_str c (String.rev_app a b) ↔ Str.In_str c a ∨ Str.In_str c b.
Proof.
  revert b. induction a as [|x a IH]; intros b; cbn; [tauto|].
  rewrite IH. cbn. tauto.
Qed.

Lemma split_go_chars c tok s x :
  x ∈ Str.split_go tok s → Str.In_str c x →
  Str.In_str c s ∨ ∃ t, tok = Some t ∧ Str.In_str c t.
Proof.
  revert tok. induction s as [|a s IH]; intros tok; cbn [Str.split_go].
  - destruct tok as [t|]; cbn; [|by intros ?%elem_of_nil].
    intros ->%list_elem_of_singleton Hc. right. exists t. split; [done|].
    apply In_str_rev_app in Hc as [?|[]]. done.
  - destruct (Str.isspace a).
    + intros [Hx|Hx]%elem_of_app Hc.
      * destruct tok as [t|]; cbn in Hx; [|by apply elem_of_nil in Hx].
        apply list_elem_of_singleton in Hx as ->. right. exists t. split; [done|].
        apply In_str_rev_app in Hc as [?|[]]. done.
      * destruct (IH None Hx Hc) as [?|(t & ? & _)]; [|done]. left. by right.
    + intros Hx Hc. destruct (IH _ Hx Hc) as [?|(t & [= <-] & Ht)].
      * left. by right.
      * destruct Ht as [->|Ht]; [left; by left|].
        destruct tok as [t|]; [|done]. right. by exists t.
Qed.

Lemma split_chars c line x :
  x ∈ Str.split line → Str.In_str c x → Str.In_str c line.
Proof.
  intros Hx Hc. destruct (split_go_chars c None line x Hx Hc) as [?|(t & ? & _)]; done.
Qed.

Lemma join_chars c sep (l : list string) :
  Str.In_str c (Str.join sep l) → Str.In_str c sep ∨ ∃ x, x ∈ l ∧ Str.In_str c x.
Proof.
  induction l as [|x l IH]; [done|]. destruct l as [|y l].
  - intros H. right. exists x. split; [apply list_elem_of_here|done].
  - change (Str.join sep (x :: y :: l)) with (x +:+ sep +:+ Str.join sep (y :: l)).
    intros [H|[H|H]%In_str_app]%In_str_app.
    + right. exists x. split; [apply list_elem_of_here|done].
    + by left.
    + destruct (IH H) as [?|(z & Hz & ?)]; [by left|].
      right. exists z. split; [by apply list_elem_of_further|done].
Qed.

Lemma joined_name_valid line token args args' :
  ¬ Str.In_str "/" line → Str.split line = token :: args → args' ⊆ args →
  valid_name (Str.join "_" args').
Proof.
  intros Hline Hsp Hsub [H|(x & Hx & H)]%join_chars.
  - by destruct H as [H|[]].
  - apply Hline, (split_chars _ _ x); [|done]. rewrite Hsp.
    apply list_elem_of_further. by apply Hsub.
Qed.

Lemma delete_result args s D e :
  mirror s D → (CommandProcessor.delete args s).1 = Raise e → no_file_error e.
Proof.
  intros Hm. unfold CommandProcessor.delete. destruct args as [|name args]; [done|].
  destruct (Notebook.get_note (notes s) name) as [i|] eqn:Hg.
  2:{ erewrite bind_ok
        by by apply delete_note_absent; [|apply (mirror_readable s D)]. done. }
  destruct (stdin s) as [|answer rest] eqn:Hin.
  { erewrite bind_raise.
    2:{ unfold Notebook.delete_note. erewrite bind_ok by reflexivity. rewrite Hg.
        by erewrite bind_raise by by apply input_eof. }
    intros [= <-]. by left. }
  destruct (decide (Str.lower answer = "yes")) as [Hyes|Hno].
  - erewrite bind_raise by by eapply delete_note_confirmed.
    intros [= <-]. right. by right.
  - by erewrite bind_ok by by eapply delete_note_declined.
Qed.

Lemma process_safe line s D :
  mirror s D → ¬ Str.In_str "/" line →
  mirror (CommandProcessor.process line s).2 D
  ∧ ∀ e, (CommandProcessor.process line s).1 = Raise e → no_file_error e.
Proof.
  intros Hm Hline. unfold CommandProcessor.process.
  destruct (Str.split line) as [|token args] eqn:Hsp; [done|].
  destruct (CommandProcessor.commands !! Str.lower token) as [handler|] eqn:E.
  2:{ split; [|done]. apply (mirror_keeps (print _)); [apply keeps_core_emit|done]. }
  apply commands_lookup in E. set_unfold.
  destruct E as [E|[E|[E|[E|[E|[E|[E|[E|[E|[]]]]]]]]]]; injection E as _ ->.
  - split.
    + apply (mirror_keeps Notebook.reset_screen); [apply keeps_core_reset_screen|done].
    + unfold CommandProcessor.home, Notebook.home.
      by rewrite (reset_screen_ok s (mirror_readable s D Hm)).
  - unfold CommandProcessor.create. destruct args as [|a args].
    { split; [|done]. apply (mirror_keeps (print _)); [apply keeps_core_emit|done]. }
    destruct (create_safe (Str.join "_" (a :: args)) s D Hm) as [H1 H2].
    { by eapply joined_name_valid. }
    split; [done|]. intros e He. destruct H2 as [H2|H2]; rewrite H2 in He; [done|].
    injection He as <-. by left.
  - destruct (edit_safe args s D Hm) as [H1 H2]. split; [done|].
    intros e He. apply H2 in He. destruct e; try done. right. by left.
  - split; [apply mirror_keeps; [apply keeps_core_delete|done]|].
    intros e. by apply (delete_result args s D).
  - unfold CommandProcessor.rename. destruct args as [|a [|b args]].
    1,2: split; [|done]; apply (mirror_keeps (print _)); [apply keeps_core_emit|done].
    destruct (rename_safe a (Str.join "_" (b :: args)) s D Hm) as [H1 H2].
    { eapply joined_name_valid; [done..|]. intros x Hx. by apply list_elem_of_further. }
    split; [done|]. intros e He. by rewrite H2 in He.
  - split; [|done]. apply (mirror_keeps (print _)); [apply keeps_core_emit|done].
  - split; [done|]. intros e [= <-]. right. by left.
  - split; [done|]. intros e [= <-]. right. by left.
  - split; [done|]. intros e [= <-]. right. by left.
Qed.


Lemma one_note_mirror input : mirror (one_note input) ["app"; "notes"].
Proof.
  split_and!; [apply one_note_healthy|apply one_note_backed|apply one_note_unique].
Qed.

Lemma no_slash_example :
  ¬ Str.In_str "/" "create b c" ∧ ¬ Str.In_str "/" "edit a" ∧ ¬ Str.In_str "/" "text".
Proof. cbn. intuition discriminate. Qed.




(** ** A whole run *)

Lemma preserves_calm_input p : preserves calm (input p).
Proof.
  intros s Hs. unfold input. erewrite bind_ok by apply emit_run.
  erewrite bind_ok by reflexivity.
  destruct s as [sd wd l m inp o t ed]. unfold calm in *. norm_state.
  destruct inp as [|line rest]; [done|]. by apply Forall_cons in Hs as [_ Hs].
Qed.

Lemma preserves_calm_reset_screen : preserves calm Notebook.reset_screen.
Proof. intros s Hs. destruct (reset_screen_cases s) as [->|[e ->]]; exact Hs. Qed.

Ltac calm_step :=
  first
    [ apply preserves_calm_input | apply preserves_calm_reset_screen
    | apply preserves_bind; [|intros ?]
    | apply preserves_try; [|intros ?]
    | apply preserves_ret | apply preserves_pass | apply preserves_raise
    | apply preserves_gets
    | apply preserves_modify; let H := fresh in intros ? H; exact H
    | match goal with
      | |- preserves _ (match ?x with _ => _ end) => destruct x
      | |- preserves _ (if ?x then _ else _) => destruct x
      end ].

Lemma preserves_calm_process line : preserves calm (CommandProcessor.process line).
Proof.
  unfold CommandProcessor.process.
  destruct (Str.split line) as [|token args]; [apply preserves_pass|].
  destruct (CommandProcessor.commands !! Str.lower token) as [handler|] eqn:E.
  2:{ repeat calm_step. }
  apply commands_lookup in E. set_unfold.
  destruct E as [E|[E|[E|[E|[E|[E|[E|[E|[E|[]]]]]]]]]]; injection E as _ ->.
  - apply preserves_calm_reset_screen.
  - unfold CommandProcessor.create, Notebook.create_note. repeat calm_step.
  - unfold CommandProcessor.edit. repeat calm_step.
  - unfold CommandProcessor.delete, Notebook.delete_note. repeat calm_step.
  - unfold CommandProcessor.rename, Notebook.rename_note. repeat calm_step.
  - unfold CommandProcessor.help, Notebook.display_help. repeat calm_step.
  - apply preserves_raise.
  - apply preserves_raise.
  - apply preserves_raise.
Qed.

Lemma loop_safe n s D :
  mirror s D → calm s →
  mirror (loop n s).2 D ∧ ∀ e, (loop n s).1 = Raise e → no_file_error e.
Proof.
  revert s. induction n as [|n IH]; intros s Hm Hc; [done|].
  cbn [loop]. destruct s as [sd wd l m inp o t ed].
  destruct inp as [|line rest].
  { erewrite bind_raise by by apply input_eof. split; [exact Hm|].
    intros e [= <-]. by left. }
  erewrite bind_ok by by apply input_ok. norm_state.
  apply Forall_cons in Hc as [Hline Hc].
  set (s1 := State sd wd l m rest (o ++ [Prompt "Notebook> "]) t ed).
  assert (mirror s1 D) as Hm1 by exact Hm.
  assert (calm s1) as Hc1 by exact Hc.
  destruct (process_safe line s1 D Hm1 Hline) as [Hm2 He2].
  pose proof (preserves_calm_process line s1 Hc1) as Hc2.
  unfold mbind, M_bind.
  destruct (CommandProcessor.process line s1) as [[[]|e] s2]; cbn [fst snd] in *.
  - by apply IH.
  - split; [done|]. intros e' [= <-]. by apply He2.
Qed.

Lemma loaded_names s D files l :
  Forall2 (loaded_from s D) files l →
  Note.name <$> l = os_path.splitext_root <$> files.
Proof.
  induction 1 as [|f note files l (Hn & _) _ IH]; [done|]. cbn. by rewrite Hn, IH.
Qed.

Lemma main_unfold n s s0 : main 0 s = (Ok (), s0) → main n s = loop n s0.
Proof.
  unfold main, mbind, M_bind.
  destruct (Notebook.init s) as [[[]|e] s1]; [|done].
  destruct (Notebook.reset_screen s1) as [[[]|e] s2]; [|done].
  cbn. by intros [= <-].
Qed.

Lemma main_safe n s D :
  tidy s D → calm s →
  mirror (main n s).2 D ∧ ∀ e, (main n s).1 = Raise e → no_file_error e.
Proof.
  intros (Hh & Hv & Hp & Hnd) Hc.
  destruct (main_start_ok s D Hh Hv Hp) as (l & Hrun & Hl & Hb).
  rewrite (main_unfold n s _ Hrun).
  apply loop_safe; [|exact Hc].
  split_and!; [exact Hh|exact Hb|].
  apply unique_names_alt. change (NoDup (Str.lower <$> (Note.name <$> l))).
  by rewrite (loaded_names _ _ _ _ Hl).
Qed.


Lemma mixed_tidy input :
  tidy (boot ["app"] [("a.txt", "x"); ("readme.md", "r")] input) ["app"; "notes"].
Proof.
  split_and!.
  - split; [vm_compute; reflexivity..|apply disk_flat].
  - unfold boot, fs. rewrite mixed_entries.
    constructor; [|constructor; [|constructor]]; unfold valid_name; cbn;
      intuition discriminate.
  - unfold boot, fs. rewrite mixed_entries.
    constructor; [|constructor; [|constructor]]; intros stem H; vm_compute in H.
    + by injection H as <-.
    + discriminate H.
  - unfold boot, fs. rewrite mixed_entries. vm_compute. apply NoDup_singleton.
Qed.


(** ** A directory among the notes *)

Lemma load_loop_directory sd wd l0 m inp o ed D files1 f files2 :
  resolve_dir m wd (os_path.join sd "notes") = inr D →
  Forall (λ f, valid_name f ∧ f ∈ entries m D ∧ m !! (D ++ [f]) ≠ Some Dir) files1 →
  valid_name f → Str.endswith_txt f = true → m !! (D ++ [f]) = Some Dir →
  ∀ acc t, ∃ t',
    Notebook.load_loop (files1 ++ f :: files2) acc (State sd wd l0 m inp o t ed)
    = (Raise (IsADirectoryError (os_path.join (os_path.join sd "notes") f)),
       State sd wd l0 m inp o t' ed).
Proof.
  intros HD Hfiles Hv Htxt Hdir.
  induction Hfiles as [|f0 files (Hv0 & Hin & Hflat) _ IH]; intros acc t.
  - exists t. cbn [app Notebook.load_loop]. rewrite Htxt.
    erewrite bind_ok by reflexivity.
    erewrite bind_raise; [reflexivity|].
    rewrite open_read_run. unfold read_file.
    rewrite (resolve_entry (State sd wd l0 m inp o t ed) D f HD Hv Htxt).
    unfold fs. by rewrite Hdir.
  - cbn [app Notebook.load_loop].
    destruct (Str.endswith_txt f0) eqn:Etxt; [|apply IH].
    apply elem_of_entries in Hin as [node Hnode].
    destruct node as [data|]; [|done].
    set (note := Note.mk (os_path.splitext_root f0) data t
                   (os_path.join (os_path.join sd "notes")
                      (os_path.splitext_root f0 +:+ ".txt"))).
    destruct (IH (acc ++ [note]) (S t)) as (t' & Hrun).
    exists t'.
    erewrite bind_ok by reflexivity.
    erewrite bind_ok.
    2:{ eapply open_read_ok; [|exact Hnode].
        by apply (resolve_entry (State sd wd l0 m inp o t ed) D f0). }
    erewrite bind_ok by apply Note_init_run.
    exact Hrun.
Qed.

(** X23. A directory in the notes folder whose name ends in [.txt] stops
    the program as it starts: [load_notes] opens it like a file, and the
    [IsADirectoryError] leaves [load_notes] and [main]. *)
Theorem load_notes_stops_at_directory (n : nat) (s : state) (D : list string)
    (files1 files2 : list string) (f : string) :
  resolve_dir (fs s) (cwd s) (notes_folder s) = inr D →
  entries (fs s) D = files1 ++ f :: files2 →
  Forall valid_name (files1 ++ [f]) →
  (∀ c, c ∈ files1 → fs s !! (D ++ [c]) ≠ Some Dir) →
  Str.endswith_txt f = true →
  fs s !! (D ++ [f]) = Some Dir →
  (Notebook.load_notes s).1
  = Raise (IsADirectoryError (os_path.join (notes_folder s) f))
  ∧ (main n s).1 = Raise (IsADirectoryError (os_path.join (notes_folder s) f)).
Proof.
  intros HD Hent Hv Hflat Htxt Hdir. destruct s as [sd wd l0 m inp o t ed].
  unfold fs, cwd, notes_folder, script_dir in *.
  apply Forall_app in Hv as [Hv1 Hvf]. rewrite Forall_singleton in Hvf.
  destruct (load_loop_directory sd wd l0 m inp o ed D files1 f files2 HD)
    with (acc := @nil Note.t) (t := t) as (t' & Hrun).
  { apply Forall_forall. intros c Hc. split_and!.
    - by apply (proj1 (Forall_forall _ _) Hv1).
    - rewrite Hent. apply elem_of_app. by left.
    - by apply Hflat. }
  { exact Hvf. }
  { exact Htxt. }
  { exact Hdir. }
  assert (Notebook.load_notes (State sd wd l0 m inp o t ed)
          = (Raise (IsADirectoryError (os_path.join (os_path.join sd "notes") f)),
             State sd wd l0 m inp o t' ed)) as Hload.
  { unfold Notebook.load_notes. erewrite bind_ok by reflexivity.
    erewrite bind_ok.
    2:{ unfold os.listdir, mbind, M_bind, gets. cbn.
        unfold notes_folder, script_dir. rewrite HD. reflexivity. }
    by rewrite Hent. }
  split; [by rewrite Hload|].
  unfold main, Notebook.init.
  by erewrite bind_raise by (erewrite bind_raise by exact Hload; reflexivity).
Qed.

Lemma cluttered_entries :
  entries (fs cluttered) ["app"; "notes"] = ["z.txt"; "d.txt"].
Proof. vm_compute. reflexivity. Qed.

Lemma load_notes_stops_at_directory_witness :
  (Notebook.load_notes cluttered).1
  = Raise (IsADirectoryError (os_path.join (notes_folder cluttered) "d.txt"))
  ∧ (main 3 cluttered).1
    = Raise (IsADirectoryError (os_path.join (notes_folder cluttered) "d.txt")).
Proof.
  apply (load_notes_stops_at_directory 3 cluttered ["app"; "notes"] ["z.txt"] [] "d.txt").
  - vm_compute. reflexivity.
  - apply cluttered_entries.
  - constructor; [|constructor; [|constructor]]; unfold valid_name; cbn;
      intuition discriminate.
  - intros c ->%list_elem_of_singleton. vm_compute. discriminate.
  - vm_compute. reflexivity.
  - vm_compute. reflexivity.
Defined.

(** ** Listing twice *)

(** X24. [display_notes] only prints: called twice in a row on notes whose
    files can be read, it prints the same table twice, made from the notes as
    they are in memory, and leaves notes, files, input and clock as they
    were. *)
Theorem display_notes_twice (s : state) :
  Forall (readable s) (notes s) →
  (Notebook.display_notes;; Notebook.display_notes) s
  = (Ok (), say [Table (table_of (notes s)); Table (table_of (notes s))] s).
Proof.
  intros Hr. erewrite bind_ok by by apply display_notes_ok.
  rewrite display_notes_ok.
  - by rewrite say_say.
  - eapply Forall_impl; [exact Hr|]. intros x. by apply readable_frame.
Qed.

Lemma display_notes_twice_witness :
  (Notebook.display_notes;; Notebook.display_notes) two_notes
  = (Ok (), say [Table (table_of (notes two_notes)); Table (table_of (notes two_notes))]
              two_notes).
Proof. apply (display_notes_twice two_notes), two_notes_readable. Defined.
